(** * pasteboard-mcp: the native pasteboard adapter and its process bridge

    A shallow embedding of [swift/pbhelper.swift] (the adapter, a
    one-command-per-process program around NSPasteboard) and of
    [src/pasteboard.ts] (the bridge that spawns it), followed by the
    properties of the written specification, proved over the embedding.

    - [Data] is [list byte]; a Swift [String] is a Rocq [string] holding its
      UTF-8 code units, so [Data(s.utf8)] is [list_byte_of_string s].
    - The calls into Foundation and AppKit that the adapter makes (UTF-8
      decoding, base64, whitespace trimming, JSON serialisation, bitmap
      decoding and encoding, the names of the well-known pasteboards) are
      the fields of the classes [Foundation] and [AppKit]: every theorem
      holds for every implementation of them.  [Reference] gives one
      implementation on which the adapter can be evaluated.
    - The pasteboard server is a finite map from pasteboard names to the
      list of representations (type identifier, payload) of the current
      item, in the order in which they were set.
    - An adapter process is a state transformer over [Process] that either
      continues or exits with a code (module [Cmd]); it keeps the list of
      the pasteboard calls it has made, so that statements about the order
      of reads, clears and sets are statements about that list. *)

From Stdlib Require Import ZArith List Wf_nat Lia.
From Stdlib.Strings Require Import Ascii String Byte.
From Stdlib Require DecimalString.
From stdpp Require Import base option list gmap strings.
From Equations Require Import Equations.

Local Open Scope string_scope.

(** ** Common data *)

Definition Data := list byte.

(** [Data(s.utf8)] *)
Definition utf8 (s : string) : Data := list_byte_of_string s.

Definition newline : string := String "010"%char EmptyString.

(** [NSBitmapImageRep.FileType], the two cases the adapter uses. *)
Inductive FileType := tiff | png.

(** The libraries below the adapter. *)
Class Foundation := {
  (** [String(data: d, encoding: .utf8)] *)
  decodeUTF8 : Data → option string;
  (** [s.trimmingCharacters(in: .whitespacesAndNewlines)] *)
  trimmingWhitespacesAndNewlines : string → string;
  (** [Data(base64Encoded: s)] *)
  base64Decoded : string → option Data;
  (** [d.base64EncodedString()] *)
  base64EncodedString : Data → string;
  (** [try? JSONSerialization.data(withJSONObject: strings)] *)
  JSONSerialization_data : list string → option Data
}.

Class AppKit := {
  NSBitmapImageRep : Type;
  (** [NSBitmapImageRep(data: d)] *)
  NSBitmapImageRep_init : Data → option NSBitmapImageRep;
  (** [rep.representation(using: ft, properties: [:])] *)
  representation : NSBitmapImageRep → FileType → option Data;
  (** [NSPasteboard.Name.general] and the other well-known names *)
  Name_general : string;
  Name_find : string;
  Name_font : string;
  Name_ruler : string;
  Name_drag : string
}.

(** ** Processes: state, output streams and exit *)

(** The representations of the item on one pasteboard. *)
Definition Pasteboard := list (string * Data).

(** The calls of a process on its pasteboard handles. *)
Inductive Call :=
| ClearContents (pb : string)
| SetString (pb : string) (s : string) (t : string)
| SetData (pb : string) (d : Data) (t : string)
| StringForType (pb : string) (t : string)
| DataForType (pb : string) (t : string)
| Types (pb : string).

(** A process: the pasteboard server it talks to, its three streams, and
    the pasteboard calls it has made so far, oldest first. *)
Record Process := mkProcess {
  pasteboards : gmap string Pasteboard;
  stdin : Data;
  stdout : Data;
  stderr : string;
  calls : list Call
}.

Inductive Step (A : Type) :=
| Continue (a : A)
| Exited (code : Z).
Arguments Continue {A} a.
Arguments Exited {A} code.

Module Cmd.

Definition t (A : Type) := Process → Step A * Process.

Definition ret {A} (a : A) : t A := λ p, (Continue a, p).

Definition bind {A B} (c : t A) (k : A → t B) : t B :=
  λ p, match c p with
       | (Continue a, p') => k a p'
       | (Exited code, p') => (Exited code, p')
       end.

(** [exit(code)] *)
Definition exit {A} (code : Z) : t A := λ p, (Exited code, p).

Definition get_pasteboards : t (gmap string Pasteboard) :=
  λ p, (Continue (pasteboards p), p).

Definition put_pasteboards (w : gmap string Pasteboard) : t unit :=
  λ p, (Continue tt, mkProcess w (stdin p) (stdout p) (stderr p) (calls p)).

(** Record a pasteboard call. *)
Definition call (c : Call) : t unit :=
  λ p, (Continue tt,
        mkProcess (pasteboards p) (stdin p) (stdout p) (stderr p)
          (app (calls p) [c])).

(** [FileHandle.standardOutput.write(d)] *)
Definition write_stdout (d : Data) : t unit :=
  λ p, (Continue tt,
        mkProcess (pasteboards p) (stdin p) (app (stdout p) d) (stderr p)
          (calls p)).

(** [FileHandle.standardError.write(Data(s.utf8))] *)
Definition write_stderr (s : string) : t unit :=
  λ p, (Continue tt,
        mkProcess (pasteboards p) (stdin p) (stdout p) (stderr p ++ s)
          (calls p)).

(** Everything that is left on standard input. *)
Definition drain_stdin : t Data :=
  λ p, (Continue (stdin p),
        mkProcess (pasteboards p) [] (stdout p) (stderr p) (calls p)).

End Cmd.

Notation "x ⇐ c ;; k" := (Cmd.bind c (λ x, k))
  (at level 100, c at next level, right associativity,
   format "'[v' x  ⇐  c  ;;  '/' k ']'").
Notation "c ;;; k" := (Cmd.bind c (λ _, k))
  (at level 100, right associativity,
   format "'[v' c  ;;;  '/' k ']'").

(** ** NSPasteboard, as the adapter uses it

    A handle is the name of the pasteboard; the payloads live in the
    server's map, and a pasteboard that was never written has no
    representations.  The server keeps one payload per type identifier:
    [setString] stores the UTF-8 bytes of the string, [string(forType:)]
    is the payload when it decodes as UTF-8, and the two setters always
    take effect (the adapter ignores their result). *)
Module NSPasteboard.

(** [NSPasteboard.PasteboardType.string], [.tiff] and [.png]; the test
    suite and the tool descriptions of [index.ts] spell them out. *)
Definition string_type : string := "public.utf8-plain-text".
Definition tiff_type : string := "public.tiff".
Definition png_type : string := "public.png".

Definition contents (w : gmap string Pasteboard) (pb : string) : Pasteboard :=
  default [] (w !! pb).

Definition lookup_type (t : string) (items : Pasteboard) : option Data :=
  snd <$> find (λ it, String.eqb (fst it) t) items.

(** Set the payload of type [t]: replaced in place when the type is
    already declared, appended otherwise. *)
Fixpoint set_type (t : string) (d : Data) (items : Pasteboard) : Pasteboard :=
  match items with
  | [] => [(t, d)]
  | (t', d') :: rest =>
      if String.eqb t' t then (t, d) :: rest else (t', d') :: set_type t d rest
  end.

(** [pb.clearContents()] *)
Definition clearContents (pb : string) : Cmd.t unit :=
  Cmd.call (ClearContents pb) ;;;
  w ⇐ Cmd.get_pasteboards ;;
  Cmd.put_pasteboards (<[pb := []]> w).

(** The server stores the payload [d] under the type [t]. *)
Definition store (pb : string) (d : Data) (t : string) : Cmd.t unit :=
  w ⇐ Cmd.get_pasteboards ;;
  Cmd.put_pasteboards (<[pb := set_type t d (contents w pb)]> w).

(** [pb.setData(d, forType: t)] *)
Definition setData (pb : string) (d : Data) (t : string) : Cmd.t unit :=
  Cmd.call (SetData pb d t) ;;;
  store pb d t.

(** [pb.setString(s, forType: t)] *)
Definition setString (pb : string) (s : string) (t : string) : Cmd.t unit :=
  Cmd.call (SetString pb s t) ;;;
  store pb (utf8 s) t.

(** [pb.data(forType: t)] *)
Definition data_forType (pb : string) (t : string) : Cmd.t (option Data) :=
  Cmd.call (DataForType pb t) ;;;
  w ⇐ Cmd.get_pasteboards ;;
  Cmd.ret (lookup_type t (contents w pb)).

(** [pb.string(forType: t)]: the payload, when it reads as a string. *)
Definition string_forType `{Foundation} (pb : string) (t : string)
  : Cmd.t (option string) :=
  Cmd.call (StringForType pb t) ;;;
  w ⇐ Cmd.get_pasteboards ;;
  Cmd.ret (lookup_type t (contents w pb) ≫= decodeUTF8).

(** [pb.types] *)
Definition types (pb : string) : Cmd.t (option (list string)) :=
  Cmd.call (Types pb) ;;;
  w ⇐ Cmd.get_pasteboards ;;
  Cmd.ret (Some (fst <$> contents w pb)).

End NSPasteboard.

(** ** The adapter: [swift/pbhelper.swift] *)
Module Adapter.
Section Adapter.
Context `{Foundation} `{AppKit}.

(** *** Helpers *)

Definition printError (message : string) : Cmd.t unit :=
  Cmd.write_stderr (message ++ newline).

(** Every call of the source leaves [code] at its default, 1. *)
Definition exitError {A} (message : string) (code : Z) : Cmd.t A :=
  printError message ;;;
  Cmd.exit code.

Definition getPasteboard (name : option string) : string :=
  match name with
  | None => Name_general
  | Some name =>
      if name =? "general" then Name_general
      else if name =? "find" then Name_find
      else if name =? "font" then Name_font
      else if name =? "ruler" then Name_ruler
      else if name =? "drag" then Name_drag
      else name
  end.

(** The [fread] loop appends chunks until one is empty: all of stdin. *)
Definition readStdin : Cmd.t Data := Cmd.drain_stdin.

(** *** Argument parsing *)

Record Args := mkArgs {
  command : string;
  pasteboard : option string;
  type : option string;
  format : string;
  isBase64 : bool
}.

Definition usage : string :=
  "Usage: pbhelper <command> [options]" ++ newline ++
  newline ++
  "Commands:" ++ newline ++
  "  list-types  [--pasteboard NAME]" ++ newline ++
  "  read-text   [--pasteboard NAME]" ++ newline ++
  "  write-text  [--pasteboard NAME]" ++ newline ++
  "  read-image  [--pasteboard NAME] [--format png|tiff]" ++ newline ++
  "  write-image [--pasteboard NAME] [--format png|tiff]" ++ newline ++
  "  read        --type UTI [--pasteboard NAME]" ++ newline ++
  "  write       --type UTI [--pasteboard NAME] [--base64]" ++ newline ++
  "  clear       [--pasteboard NAME]".

Definition printUsage : Cmd.t unit := printError usage.

(** The [while i < argv.count] loop, on what is left of [argv] from
    index [i] on. *)
Fixpoint parseFlags (rest : list string) (args : Args) : Cmd.t Args :=
  match rest with
  | [] => Cmd.ret args
  | a :: rest' =>
      if a =? "--pasteboard" then
        match rest' with
        | [] => exitError "Missing value for --pasteboard" 1
        | v :: rest'' =>
            parseFlags rest''
              (mkArgs (command args) (Some v) (type args) (format args)
                 (isBase64 args))
        end
      else if a =? "--type" then
        match rest' with
        | [] => exitError "Missing value for --type" 1
        | v :: rest'' =>
            parseFlags rest''
              (mkArgs (command args) (pasteboard args) (Some v) (format args)
                 (isBase64 args))
        end
      else if a =? "--format" then
        match rest' with
        | [] => exitError "Missing value for --format" 1
        | v :: rest'' =>
            parseFlags rest''
              (mkArgs (command args) (pasteboard args) (type args) v
                 (isBase64 args))
        end
      else if a =? "--base64" then
        parseFlags rest'
          (mkArgs (command args) (pasteboard args) (type args) (format args)
             true)
      else exitError ("Unknown argument: " ++ a) 1
  end.

(** [argv] is [CommandLine.arguments], the program name first. *)
Definition parseArgs (argv : list string) : Cmd.t Args :=
  match argv with
  | _ :: cmd :: rest =>
      parseFlags rest (mkArgs cmd None None "png" false)
  | _ =>
      printUsage ;;;
      Cmd.exit 1
  end.

(** *** Commands *)

Definition cmdListTypes (args : Args) : Cmd.t unit :=
  let pb := getPasteboard (pasteboard args) in
  types ⇐ NSPasteboard.types pb ;;
  let strings := default [] types in
  match JSONSerialization_data strings ≫= decodeUTF8 with
  | None => exitError "Failed to serialize types" 1
  | Some str => Cmd.write_stdout (utf8 (str ++ newline))
  end.

Definition cmdReadText (args : Args) : Cmd.t unit :=
  let pb := getPasteboard (pasteboard args) in
  text ⇐ NSPasteboard.string_forType pb NSPasteboard.string_type ;;
  match text with
  | None => exitError "No text on pasteboard" 1
  | Some text => Cmd.write_stdout (utf8 text)
  end.

Definition cmdWriteText (args : Args) : Cmd.t unit :=
  data ⇐ readStdin ;;
  match decodeUTF8 data with
  | None => exitError "Invalid UTF-8 input" 1
  | Some text =>
      let pb := getPasteboard (pasteboard args) in
      NSPasteboard.clearContents pb ;;;
      NSPasteboard.setString pb text NSPasteboard.string_type
  end.

Definition fileType_of (format : string) : FileType :=
  if format =? "tiff" then tiff else png.

Definition cmdReadImage (args : Args) : Cmd.t unit :=
  let pb := getPasteboard (pasteboard args) in
  tiffData ⇐ NSPasteboard.data_forType pb NSPasteboard.tiff_type ;;
  let imageRep := tiffData ≫= NSBitmapImageRep_init in
  imageRep ⇐ match imageRep with
             | Some rep => Cmd.ret (Some rep)
             | None =>
                 pngData ⇐ NSPasteboard.data_forType pb NSPasteboard.png_type ;;
                 Cmd.ret (pngData ≫= NSBitmapImageRep_init)
             end ;;
  match imageRep with
  | None => exitError "No image on pasteboard" 1
  | Some rep =>
      let fileType := fileType_of (format args) in
      match representation rep fileType with
      | None => exitError ("Failed to convert image to " ++ format args) 1
      | Some outputData =>
          let base64 := base64EncodedString outputData in
          Cmd.write_stdout (utf8 base64)
      end
  end.

(** [String(data:encoding:)?.trimmingCharacters(in:)] followed by
    [Data(base64Encoded:)], the guard shared by the two base64 inputs. *)
Definition decodeBase64Input (stdinData : Data) : option Data :=
  base64String ← trimmingWhitespacesAndNewlines <$> decodeUTF8 stdinData;
  base64Decoded base64String.

Definition cmdWriteImage (args : Args) : Cmd.t unit :=
  stdinData ⇐ readStdin ;;
  match decodeBase64Input stdinData with
  | None => exitError "Invalid base64 image data" 1
  | Some imageData =>
      match NSBitmapImageRep_init imageData with
      | None => exitError "Failed to decode image data" 1
      | Some imageRep =>
          let pb := getPasteboard (pasteboard args) in
          NSPasteboard.clearContents pb ;;;
          match representation imageRep tiff with
          | Some tiffData => NSPasteboard.setData pb tiffData NSPasteboard.tiff_type
          | None => Cmd.ret tt
          end ;;;
          if format args =? "png" then
            match representation imageRep png with
            | Some pngData => NSPasteboard.setData pb pngData NSPasteboard.png_type
            | None => Cmd.ret tt
            end
          else Cmd.ret tt
      end
  end.

Definition cmdRead (args : Args) : Cmd.t unit :=
  match type args with
  | None => exitError "--type is required for read command" 1
  | Some typeStr =>
      let pb := getPasteboard (pasteboard args) in
      let pasteboardType := typeStr in
      str ⇐ NSPasteboard.string_forType pb pasteboardType ;;
      match str with
      | Some str => Cmd.write_stdout (utf8 str)
      | None =>
          data ⇐ NSPasteboard.data_forType pb pasteboardType ;;
          match data with
          | None =>
              exitError ("No data for type " ++ typeStr ++ " on pasteboard") 1
          | Some data =>
              let base64 := base64EncodedString data in
              Cmd.write_stdout (utf8 base64)
          end
      end
  end.

Definition cmdWrite (args : Args) : Cmd.t unit :=
  match type args with
  | None => exitError "--type is required for write command" 1
  | Some typeStr =>
      stdinData ⇐ readStdin ;;
      let pb := getPasteboard (pasteboard args) in
      let pasteboardType := typeStr in
      if isBase64 args then
        match decodeBase64Input stdinData with
        | None => exitError "Invalid base64 data" 1
        | Some decoded =>
            NSPasteboard.clearContents pb ;;;
            NSPasteboard.setData pb decoded pasteboardType
        end
      else
        match decodeUTF8 stdinData with
        | None => exitError "Invalid UTF-8 input" 1
        | Some text =>
            NSPasteboard.clearContents pb ;;;
            NSPasteboard.setString pb text pasteboardType
        end
  end.

Definition cmdClear (args : Args) : Cmd.t unit :=
  let pb := getPasteboard (pasteboard args) in
  NSPasteboard.clearContents pb.

(** *** Main *)

(** The [switch args.command] of the top level. *)
Definition dispatch (args : Args) : Cmd.t unit :=
  let c := command args in
  if c =? "list-types" then cmdListTypes args
  else if c =? "read-text" then cmdReadText args
  else if c =? "write-text" then cmdWriteText args
  else if c =? "read-image" then cmdReadImage args
  else if c =? "write-image" then cmdWriteImage args
  else if c =? "read" then cmdRead args
  else if c =? "write" then cmdWrite args
  else if c =? "clear" then cmdClear args
  else (printUsage ;;; Cmd.exit 1).

Definition main (argv : list string) : Cmd.t unit :=
  args ⇐ parseArgs argv ;;
  dispatch args.

End Adapter.
End Adapter.

(** ** Running one adapter process *)

(** What a finished process leaves behind: its exit code, what it printed,
    the pasteboard server and the pasteboard calls it made. *)
Record Outcome := mkOutcome {
  exit_code : Z;
  out : Data;
  err : string;
  after : gmap string Pasteboard;
  calls_made : list Call
}.

(** A fresh process: [input] on stdin, [w] on the pasteboard server. *)
Definition fresh (input : Data) (w : gmap string Pasteboard) : Process :=
  mkProcess w input [] EmptyString [].

(** Run a command from a fresh process.  Falling off the end of the
    program is exit code 0. *)
Definition run_cmd (c : Cmd.t unit) (input : Data) (w : gmap string Pasteboard)
  : Outcome :=
  let '(r, p) := c (fresh input w) in
  mkOutcome (match r with Continue _ => 0 | Exited code => code end)
    (stdout p) (stderr p) (pasteboards p) (calls p).

(** ** A reference implementation of the libraries

    Enough of Foundation and AppKit to evaluate the adapter: the UTF-8
    well-formedness table of the Unicode standard, RFC 4648 base64 with
    mandatory padding, trimming of the ASCII white space, a JSON array
    printer, and a bitmap library over two signature-tagged containers. *)
Module Reference.

Definition between (lo hi n : N) : bool := (lo <=? n)%N && (n <=? hi)%N.

Definition continuation (n : N) : bool := between 128 191 n.

(** Well-formed UTF-8 byte sequences (Unicode, table 3-7). *)
Fixpoint well_formed (l : list N) : bool :=
  match l with
  | [] => true
  | b0 :: r =>
      if (b0 <=? 127)%N then well_formed r
      else if between 194 223 b0 then
        match r with
        | b1 :: r => continuation b1 && well_formed r
        | _ => false
        end
      else if between 224 239 b0 then
        match r with
        | b1 :: b2 :: r =>
            (if (b0 =? 224)%N then between 160 191 b1
             else if (b0 =? 237)%N then between 128 159 b1
             else continuation b1)
            && continuation b2 && well_formed r
        | _ => false
        end
      else if between 240 244 b0 then
        match r with
        | b1 :: b2 :: b3 :: r =>
            (if (b0 =? 240)%N then between 144 191 b1
             else if (b0 =? 244)%N then between 128 143 b1
             else continuation b1)
            && continuation b2 && continuation b3 && well_formed r
        | _ => false
        end
      else false
  end.

Definition decodeUTF8 (d : Data) : option string :=
  if well_formed (Byte.to_N <$> d) then Some (string_of_list_byte d) else None.

Definition is_space (c : ascii) : bool :=
  let n := N_of_ascii c in (n =? 32)%N || between 9 13 n.

Fixpoint trim_left (s : string) : string :=
  match s with
  | String c s' => if is_space c then trim_left s' else s
  | EmptyString => EmptyString
  end.

Definition trim (s : string) : string :=
  String.rev (trim_left (String.rev (trim_left s))).

(** The base64 alphabet. *)
Definition sextet_char (n : N) : ascii :=
  ascii_of_N
    (if (n <? 26)%N then n + 65
     else if (n <? 52)%N then n - 26 + 97
     else if (n <? 62)%N then n - 52 + 48
     else if (n =? 62)%N then 43 else 47)%N.

Definition char_sextet (c : ascii) : option N :=
  let n := N_of_ascii c in
  if between 65 90 n then Some (n - 65)%N
  else if between 97 122 n then Some (n - 97 + 26)%N
  else if between 48 57 n then Some (n - 48 + 52)%N
  else if (n =? 43)%N then Some 62%N
  else if (n =? 47)%N then Some 63%N
  else None.

Definition pad : ascii := "="%char.

Fixpoint encode (l : list N) : list ascii :=
  match l with
  | a :: b :: c :: r =>
      sextet_char (a / 4) :: sextet_char (a mod 4 * 16 + b / 16)
      :: sextet_char (b mod 16 * 4 + c / 64) :: sextet_char (c mod 64)
      :: encode r
  | [a; b] =>
      [sextet_char (a / 4); sextet_char (a mod 4 * 16 + b / 16);
       sextet_char (b mod 16 * 4); pad]
  | [a] => [sextet_char (a / 4); sextet_char (a mod 4 * 16); pad; pad]
  | [] => []
  end%N.

Definition base64EncodedString (d : Data) : string :=
  string_of_list_ascii (encode (Byte.to_N <$> d)).

Definition byte_of (n : N) : byte := default x00 (Byte.of_N n).

Fixpoint decode (l : list ascii) : option (list byte) :=
  match l with
  | [] => Some []
  | c1 :: c2 :: c3 :: c4 :: r =>
      s1 ← char_sextet c1;
      s2 ← char_sextet c2;
      let b1 := byte_of (s1 * 4 + s2 / 16)%N in
      match r with
      | [] =>
          if Ascii.eqb c4 pad then
            if Ascii.eqb c3 pad then Some [b1]
            else
              s3 ← char_sextet c3;
              Some [b1; byte_of (s2 mod 16 * 16 + s3 / 4)%N]
          else
            s3 ← char_sextet c3;
            s4 ← char_sextet c4;
            Some [b1; byte_of (s2 mod 16 * 16 + s3 / 4)%N;
                  byte_of (s3 mod 4 * 64 + s4)%N]
      | _ =>
          s3 ← char_sextet c3;
          s4 ← char_sextet c4;
          rest ← decode r;
          Some (b1 :: byte_of (s2 mod 16 * 16 + s3 / 4)%N
                   :: byte_of (s3 mod 4 * 64 + s4)%N :: rest)
      end
  | _ => None
  end.

Definition base64Decoded (s : string) : option Data :=
  decode (list_ascii_of_string s).

Definition quote : string := String (ascii_of_nat 34) EmptyString.
Definition backslash : string := String (ascii_of_nat 92) EmptyString.

Fixpoint escape (s : string) : string :=
  match s with
  | EmptyString => EmptyString
  | String c s' =>
      (if Ascii.eqb c (ascii_of_nat 34) || Ascii.eqb c (ascii_of_nat 92)
       then backslash else EmptyString) ++ String c (escape s')
  end.

Definition json_array (strings : list string) : string :=
  "[" ++ String.concat "," ((λ s, quote ++ escape s ++ quote) <$> strings)
      ++ "]".

#[export] Instance foundation : Foundation := {
  decodeUTF8 := decodeUTF8;
  trimmingWhitespacesAndNewlines := trim;
  base64Decoded := base64Decoded;
  base64EncodedString := base64EncodedString;
  JSONSerialization_data := λ strings, Some (utf8 (json_array strings))
}.

(** A bitmap is its pixel bytes; both containers are a signature followed
    by the pixels. *)
Definition tiff_signature : Data := ["I"; "I"]%byte.
Definition png_signature : Data := [x89; "P"; "N"; "G"]%byte.

Fixpoint strip_prefix (sig d : Data) : option Data :=
  match sig, d with
  | [], _ => Some d
  | a :: sig', b :: d' => if Byte.eqb a b then strip_prefix sig' d' else None
  | _ :: _, [] => None
  end.

Definition bitmap_of_data (d : Data) : option Data :=
  match strip_prefix tiff_signature d with
  | Some pixels => Some pixels
  | None => strip_prefix png_signature d
  end.

Definition bitmap_representation (pixels : Data) (ft : FileType) : option Data :=
  Some (app (match ft with tiff => tiff_signature | png => png_signature end)
          pixels).

#[export] Instance appkit : AppKit := {
  NSBitmapImageRep := Data;
  NSBitmapImageRep_init := bitmap_of_data;
  representation := bitmap_representation;
  Name_general := "Apple CFPasteboard general";
  Name_find := "Apple CFPasteboard find";
  Name_font := "Apple CFPasteboard font";
  Name_ruler := "Apple CFPasteboard ruler";
  Name_drag := "Apple CFPasteboard drag"
}.

(** The adapter, run on the reference libraries. *)
Definition pbhelper (argv : list string) (input : Data)
    (w : gmap string Pasteboard) : Outcome :=
  run_cmd (Adapter.main argv) input w.

End Reference.

(** A bitmap library whose TIFF encoder gives up:
    [representation(using: .tiff, properties:)] returns [nil], which its
    optional result type allows.  Decoding and the PNG encoder are those
    of the reference library. *)
Module NoTiff.

Definition bitmap_representation (pixels : Data) (ft : FileType)
  : option Data :=
  match ft with
  | tiff => None
  | png => Reference.bitmap_representation pixels png
  end.

Definition appkit : AppKit := {|
  NSBitmapImageRep := Data;
  NSBitmapImageRep_init := Reference.bitmap_of_data;
  representation := bitmap_representation;
  Name_general := "Apple CFPasteboard general";
  Name_find := "Apple CFPasteboard find";
  Name_font := "Apple CFPasteboard font";
  Name_ruler := "Apple CFPasteboard ruler";
  Name_drag := "Apple CFPasteboard drag"
|}.

End NoTiff.

(** ** The bridge: [src/pasteboard.ts] *)
Module Bridge.

(** What the bridge takes from the JavaScript runtime. *)
Class JavaScript := {
  (** [buf.toString()] *)
  Buffer_toString : Data → string;
  (** [s.trim()] *)
  String_trim : string → string;
  (** the values [JSON.parse] returns *)
  JSON : Type;
  (** [JSON.parse(s)]: the value, or the message of the error it throws *)
  JSON_parse : string → string + JSON
}.

(** [new Error(message)] *)
Record Error := mkError { message : string }.

(** A settled promise. *)
Inductive Promise (A : Type) :=
| Resolved (a : A)
| Rejected (e : Error).
Arguments Resolved {A} a.
Arguments Rejected {A} e.

(** [await p] followed by the rest of an async function. *)
Definition await {A B} (p : Promise A) (k : A → Promise B) : Promise B :=
  match p with
  | Resolved a => k a
  | Rejected e => Rejected e
  end.

Record ExecResult := mkExecResult {
  stdout : Data;
  stderr : string;
  exitCode : Z
}.

(** What a spawned child does, as the listeners of [execPbHelper] see it:
    an ['error'] event, or the data chunks of both pipes and then
    ['close'] with the exit code ([null] when a signal ended it). *)
Inductive Child :=
| SpawnError (message : string)
| Closed (stdoutChunks stderrChunks : list Data) (code : option Z).

(** [`${n}`] for an integer. *)
Definition Number_toString (n : Z) : string :=
  DecimalString.NilZero.string_of_int (Z.to_int n).

(** [a || b] on strings: the empty string is the falsy one. *)
Definition or_else (a b : string) : string :=
  match a with
  | EmptyString => b
  | _ => a
  end.

Section Bridge.
Context `{JavaScript}.
(** [spawn(PBHELPER, args)] with [stdinData] written to its stdin. *)
Variable spawn : list string → option string → Child.

Definition execPbHelper (args : list string) (stdinData : option string)
  : Promise ExecResult :=
  match spawn args stdinData with
  | SpawnError msg => Rejected (mkError ("Failed to spawn pbhelper: " ++ msg))
  | Closed stdoutChunks stderrChunks code =>
      Resolved
        (mkExecResult (concat stdoutChunks)
           (String.concat EmptyString (Buffer_toString <$> stderrChunks))
           (default 1%Z code))
  end.

Definition pbArgs (pasteboard : option string) : list string :=
  match pasteboard with
  | None | Some EmptyString => []
  | Some pasteboard => ["--pasteboard"; pasteboard]
  end.

(** A [throw] inside an async function rejects its promise. *)
Definition checkResult (result : ExecResult) : Promise unit :=
  if negb (exitCode result =? 0)%Z then
    Rejected
      (mkError
         (or_else (String_trim (stderr result))
            ("pbhelper exited with code "
             ++ Number_toString (exitCode result))))
  else Resolved tt.

Definition listTypes (pasteboard : option string) : Promise JSON :=
  await (execPbHelper ("list-types" :: pbArgs pasteboard) None) (λ result,
  await (checkResult result) (λ _,
  match JSON_parse (Buffer_toString (stdout result)) with
  | inl msg => Rejected (mkError msg)
  | inr v => Resolved v
  end)).

Definition readText (pasteboard : option string) : Promise string :=
  await (execPbHelper ("read-text" :: pbArgs pasteboard) None) (λ result,
  await (checkResult result) (λ _,
  Resolved (Buffer_toString (stdout result)))).

Definition writeText (text : string) (pasteboard : option string)
  : Promise unit :=
  await (execPbHelper ("write-text" :: pbArgs pasteboard) (Some text))
    (λ result, checkResult result).

Definition readImage (pasteboard : option string) (format : string)
  : Promise string :=
  await (execPbHelper ("read-image" :: "--format" :: format
                         :: pbArgs pasteboard) None) (λ result,
  await (checkResult result) (λ _,
  Resolved (Buffer_toString (stdout result)))).

Definition writeImage (base64Data : string) (pasteboard : option string)
    (format : string) : Promise unit :=
  await (execPbHelper ("write-image" :: "--format" :: format
                         :: pbArgs pasteboard) (Some base64Data))
    (λ result, checkResult result).

Definition readData (type : string) (pasteboard : option string)
  : Promise string :=
  await (execPbHelper ("read" :: "--type" :: type :: pbArgs pasteboard)
           None) (λ result,
  await (checkResult result) (λ _,
  Resolved (Buffer_toString (stdout result)))).

Definition writeData (type data : string) (isBase64 : bool)
    (pasteboard : option string) : Promise unit :=
  let args :=
    "write" :: "--type" :: type
    :: app (if isBase64 then ["--base64"] else []) (pbArgs pasteboard) in
  await (execPbHelper args (Some data)) (λ result, checkResult result).

Definition clear (pasteboard : option string) : Promise unit :=
  await (execPbHelper ("clear" :: pbArgs pasteboard) None)
    (λ result, checkResult result).

End Bridge.
End Bridge.

(** ** A reference JavaScript runtime, and the adapter as the child

    Buffers decode to the string of their bytes, [trim] is the trimming of
    the reference libraries, and [JSON.parse] reads arrays of strings, which
    is what list-types prints. *)
Module ReferenceJS.

Inductive Mode := Start | First | Item | InString | Escaped | Next | Done.

Definition unexpected : string + list string := inl "Unexpected token in JSON".

Fixpoint scan (s : string) (m : Mode) (cur : list ascii) (acc : list string)
  : string + list string :=
  match s with
  | EmptyString =>
      match m with
      | Done => inr (reverse acc)
      | _ => inl "Unexpected end of JSON input"
      end
  | String c s' =>
      let quoted := Ascii.eqb c (ascii_of_nat 34) in
      match m with
      | Start =>
          if Reference.is_space c then scan s' Start cur acc
          else if Ascii.eqb c "[" then scan s' First cur acc
          else unexpected
      | First =>
          if Reference.is_space c then scan s' First cur acc
          else if quoted then scan s' InString [] acc
          else if Ascii.eqb c "]" then scan s' Done cur acc
          else unexpected
      | Item =>
          if Reference.is_space c then scan s' Item cur acc
          else if quoted then scan s' InString [] acc
          else unexpected
      | InString =>
          if quoted
          then scan s' Next [] (string_of_list_ascii (reverse cur) :: acc)
          else if Ascii.eqb c (ascii_of_nat 92) then scan s' Escaped cur acc
          else scan s' InString (c :: cur) acc
      | Escaped => scan s' InString (c :: cur) acc
      | Next =>
          if Reference.is_space c then scan s' Next cur acc
          else if Ascii.eqb c "," then scan s' Item cur acc
          else if Ascii.eqb c "]" then scan s' Done cur acc
          else unexpected
      | Done =>
          if Reference.is_space c then scan s' Done cur acc else unexpected
      end
  end.

#[export] Instance javascript : Bridge.JavaScript := {
  Bridge.Buffer_toString := string_of_list_byte;
  Bridge.String_trim := Reference.trim;
  Bridge.JSON := list string;
  Bridge.JSON_parse := λ s, scan s Start [] []
}.

(** The child that [spawn] starts is the adapter, run against the
    pasteboard server [w]; its output arrives in one chunk per pipe. *)
Definition spawn_on (w : gmap string Pasteboard)
    (args : list string) (stdinData : option string) : Bridge.Child :=
  let o := Reference.pbhelper ("pbhelper" :: args)
             (utf8 (default EmptyString stdinData)) w in
  Bridge.Closed [out o] [utf8 (err o)] (Some (exit_code o)).

(** The pasteboard server after the adapter ran with [args] and [input]. *)
Definition server_after (args : list string) (input : string)
    (w : gmap string Pasteboard) : gmap string Pasteboard :=
  after (Reference.pbhelper ("pbhelper" :: args) (utf8 input) w).

End ReferenceJS.

(** ** Sample inputs and pasteboards *)
Module Samples.
Import ReferenceJS.
#[local] Existing Instance Reference.appkit.

Definition pixels : Data := ["010"; "020"; "030"; "040"]%byte.

(** A PNG of the reference bitmap library, in base64 and with the newline
    that a shell pipeline would add. *)
Definition png_input : Data :=
  utf8 (Reference.base64EncodedString (app Reference.png_signature pixels)
        ++ newline).

(** [line 1], a newline, and [caf] followed by U+00E9. *)
Definition sample_text : string :=
  "line 1" ++ newline ++ "caf" ++ String "195" (String "169" EmptyString).

(** The general pasteboard holding the text [hello]. *)
Definition with_text : gmap string Pasteboard :=
  server_after ["write-text"] "hello" ∅.

(** A pasteboard whose TIFF payload is not an image and whose PNG payload
    is one. *)
Definition with_broken_tiff : gmap string Pasteboard :=
  {[ Name_general :=
       [(NSPasteboard.tiff_type, [x00; x01]);
        (NSPasteboard.png_type, app Reference.png_signature pixels)] ]}.

(** A pasteboard with one payload that is not UTF-8. *)
Definition with_binary : gmap string Pasteboard :=
  {[ Name_general := [("com.test.bin", [xff])] ]}.

(** The image of the test suite, for the reference bitmap library. *)
Definition TEST_PNG_BASE64 : string :=
  Reference.base64EncodedString (app Reference.png_signature pixels).

End Samples.

(** ** The read loop of [readStdin]

    [fread(buf, 1, 65536, stdin)] fills the buffer from what is left of the
    stream and returns the number of bytes it read, 0 at the end of the
    stream: it takes the next [count] bytes, or all of them when fewer are
    left. *)
Module Stdin.

Definition capacity : nat := 2 ^ 16.

(** The chunk read and the rest of the stream. *)
Definition fread (count : nat) (stream : Data) : Data * Data :=
  (take count stream, drop count stream).

(** A value together with the equation that names it, for the test on
    what [fread] returned. *)
Definition inspect {A} (a : A) : {b : A | a = b} := exist _ a eq_refl.

(** [while true { let n = fread(buf, 1, count, stdin); if n == 0 { break };
    data.append(buf, count: n) }], from the stream and the [data] gathered
    so far; the result is the data and what is left of the stream. *)
Equations? readLoop (count : nat) (stream data : Data) : Data * Data
  by wf (length stream) lt :=
  readLoop count stream data with inspect (fst (fread count stream)) := {
    | exist _ nil _ => (data, snd (fread count stream));
    | exist _ (cons b chunk) Hread =>
        readLoop count (snd (fread count stream)) (app data (cons b chunk)) }.
Proof.
  cbn [fread fst snd] in *. rewrite length_drop.
  destruct stream as [|b0 stream]; [by rewrite take_nil in Hread|].
  destruct count; [done|]. cbn. lia.
Qed.

(** [readStdin()], with its loop. *)
Definition readStdin : Cmd.t Data :=
  λ p, let '(data, rest) := readLoop capacity (stdin p) [] in
       (Continue data,
        mkProcess (pasteboards p) rest (stdout p) (stderr p) (calls p)).

End Stdin.

(** ** The tool handlers: [src/index.ts]

    The callbacks that [registerTool] is given, after the SDK has checked
    the arguments against the input schema. *)
Module Server.
Import Bridge.

(** The items of a tool result's [content] array. *)
Inductive Content :=
| TextContent (text : string)
| ImageContent (data mimeType : string).

Record ToolResult := mkToolResult { content : list Content }.

Section Server.
Context `{JavaScript}.
Variable spawn : list string → option string → Child.
(** [JSON.stringify(types, null, 2)] *)
Variable JSON_stringify : JSON → string.

Definition text_result (text : string) : Promise ToolResult :=
  Resolved (mkToolResult [TextContent text]).

Definition pasteboard_list_types (pasteboard : option string)
  : Promise ToolResult :=
  await (listTypes spawn pasteboard) (λ types,
  text_result (JSON_stringify types)).

Definition pasteboard_read_text (pasteboard : option string)
  : Promise ToolResult :=
  await (readText spawn pasteboard) (λ text,
  text_result text).

Definition pasteboard_write_text (text : string) (pasteboard : option string)
  : Promise ToolResult :=
  await (writeText spawn text pasteboard) (λ _,
  text_result "Text written to pasteboard.").

Definition pasteboard_read_image (pasteboard format : option string)
  : Promise ToolResult :=
  let fmt := default "png" format in
  await (readImage spawn pasteboard fmt) (λ base64,
  let mimeType := if fmt =? "tiff" then "image/tiff" else "image/png" in
  Resolved (mkToolResult [ImageContent base64 mimeType])).

Definition pasteboard_write_image (data : string) (format : option string)
    (pasteboard : option string) : Promise ToolResult :=
  await (writeImage spawn data pasteboard (default "png" format)) (λ _,
  text_result "Image written to pasteboard.").

Definition pasteboard_read (type : string) (pasteboard : option string)
  : Promise ToolResult :=
  await (readData spawn type pasteboard) (λ data,
  text_result data).

Definition pasteboard_write (type data : string) (is_base64 : option bool)
    (pasteboard : option string) : Promise ToolResult :=
  await (writeData spawn type data (default false is_base64) pasteboard) (λ _,
  text_result ("Data written to pasteboard as " ++ type ++ ".")).

Definition pasteboard_clear (pasteboard : option string) : Promise ToolResult :=
  await (clear spawn pasteboard) (λ _,
  text_result "Pasteboard cleared.").

End Server.
End Server.

(** ** The adapter as the child of the bridge

    [spawn(PBHELPER, args)] runs the adapter with [args] after its own
    name, the payload in UTF-8 on its stdin (nothing when there is no
    payload), against the pasteboard server [w]; what it printed arrives in
    one chunk per pipe, then its exit code. *)
Module Pipeline.
Section Pipeline.
Context `{Foundation} `{AppKit}.

Definition adapter_run (w : gmap string Pasteboard)
    (args : list string) (stdinData : option string) : Outcome :=
  run_cmd (Adapter.main ("pbhelper" :: args))
    (utf8 (default EmptyString stdinData)) w.

Definition adapter_child (w : gmap string Pasteboard)
    (args : list string) (stdinData : option string) : Bridge.Child :=
  let o := adapter_run w args stdinData in
  Bridge.Closed [out o] [utf8 (err o)] (Some (exit_code o)).

End Pipeline.
End Pipeline.

(** * The vocabulary of the specification *)

Module AdapterSpec.
Section AdapterSpec.
Context `{Foundation} `{AppKit}.
Import Adapter.

(** The pasteboard name that reaches the adapter through the bridge:
    [pbArgs] drops an empty name. *)
Definition named (pasteboard : option string) : option string :=
  match pasteboard with
  | Some EmptyString => None
  | _ => pasteboard
  end.

(** The commands that write. *)
Definition is_write (c : string) : bool :=
  (c =? "write-text") || (c =? "write-image") || (c =? "write").

(** A representation that is there when its payload is. *)
Definition rep_if (t : string) (payload : option Data) : Pasteboard :=
  match payload with
  | Some d => [(t, d)]
  | None => []
  end.

(** The representations of a bitmap written with [--format fmt]. *)
Definition image_item (rep : NSBitmapImageRep) (fmt : string) : Pasteboard :=
  app (rep_if NSPasteboard.tiff_type (representation rep tiff))
      (if fmt =? "png"
       then rep_if NSPasteboard.png_type (representation rep png)
       else []).

(** The representations a write command sets, read off its input: the
    arguments of its [setString] and [setData] calls. *)
Definition representations_set (args : Args) (input : Data) : Pasteboard :=
  let c := command args in
  if c =? "write-text" then
    rep_if NSPasteboard.string_type (utf8 <$> decodeUTF8 input)
  else if c =? "write-image" then
    match decodeBase64Input input ≫= NSBitmapImageRep_init with
    | Some rep => image_item rep (format args)
    | None => []
    end
  else if c =? "write" then
    match type args with
    | Some t =>
        rep_if t (if isBase64 args then decodeBase64Input input
                  else utf8 <$> decodeUTF8 input)
    | None => []
    end
  else [].

(** The image [read-image] works on, in the words of the specification:
    of the candidates TIFF payload, PNG payload, in this order, the first
    one that decodes to a bitmap. *)
Definition first_decodable (candidates : list (option Data))
  : option NSBitmapImageRep :=
  head (omap (λ c, c ≫= NSBitmapImageRep_init) candidates).

Definition image_on (items : Pasteboard) : option NSBitmapImageRep :=
  first_decodable [NSPasteboard.lookup_type NSPasteboard.tiff_type items;
                   NSPasteboard.lookup_type NSPasteboard.png_type items].

(** What [pb.data(forType: t)] and [pb.string(forType: t)] return on the
    pasteboard named [pb] of the server [w]. *)
Definition data_on (w : gmap string Pasteboard) (pb t : string) : option Data :=
  NSPasteboard.lookup_type t (NSPasteboard.contents w pb).

Definition string_on (w : gmap string Pasteboard) (pb t : string)
  : option string :=
  data_on w pb t ≫= decodeUTF8.

(** A process that made the calls [cs], printed [message] on stderr,
    exited with 1 and left the pasteboards as they were. *)
Definition failed (message : string) (w : gmap string Pasteboard)
    (cs : list Call) : Outcome :=
  mkOutcome 1 [] (message ++ newline) w cs.

(** A process that made the calls [cs], wrote [d] on stdout, ended normally
    and left the pasteboards as they were. *)
Definition succeeded (d : Data) (w : gmap string Pasteboard)
    (cs : list Call) : Outcome :=
  mkOutcome 0 d EmptyString w cs.

(** The calls that change a pasteboard. *)
Definition is_mutation (c : Call) : bool :=
  match c with
  | ClearContents _ | SetString _ _ _ | SetData _ _ _ => true
  | StringForType _ _ | DataForType _ _ | Types _ => false
  end.

(** The calls that set a representation on the pasteboard [pb]; and the
    representation that such a call sets. *)
Definition is_set_on (pb : string) (c : Call) : Prop :=
  match c with
  | SetString pb' _ _ | SetData pb' _ _ => pb' = pb
  | _ => False
  end.

Definition set_by (c : Call) : option (string * Data) :=
  match c with
  | SetString _ s t => Some (t, utf8 s)
  | SetData _ d t => Some (t, d)
  | _ => None
  end.

(** A process that replaced the item of [pb]: one [clearContents], then
    the calls [sets]; it printed nothing and ended normally. *)
Definition replaced (pb : string) (sets : list Call)
    (w : gmap string Pasteboard) : Outcome :=
  mkOutcome 0 [] EmptyString (<[pb := omap set_by sets]> w)
    (ClearContents pb :: sets).

(** The [setData] call of an encoding, when there is one. *)
Definition set_if (pb t : string) (payload : option Data) : list Call :=
  match payload with
  | Some d => [SetData pb d t]
  | None => []
  end.

(** The [setData] calls of write-image for a bitmap. *)
Definition image_sets (pb : string) (rep : NSBitmapImageRep) (fmt : string)
  : list Call :=
  app (set_if pb NSPasteboard.tiff_type (representation rep tiff))
      (if fmt =? "png"
       then set_if pb NSPasteboard.png_type (representation rep png)
       else []).

(** The reads of read-image: the PNG payload is asked for only when the
    TIFF payload gave no bitmap. *)
Definition image_reads (pb : string) (items : Pasteboard) : list Call :=
  DataForType pb NSPasteboard.tiff_type
  :: match NSPasteboard.lookup_type NSPasteboard.tiff_type items
           ≫= NSBitmapImageRep_init with
     | Some _ => []
     | None => [DataForType pb NSPasteboard.png_type]
     end.

End AdapterSpec.
End AdapterSpec.

Module BridgeSpec.
Section BridgeSpec.
Import Bridge.
Context `{JavaScript}.

(** The message of a failed call: the trimmed stderr text, or the generic
    message with the exit code when that is empty. *)
Definition failure_message (stderr_text : string) (code : Z) : string :=
  let trimmed := String_trim stderr_text in
  if trimmed =? EmptyString
  then "pbhelper exited with code " ++ Number_toString code
  else trimmed.

(** How a call settles for a given run of the child: [decode] turns the
    stdout of a run that exited with 0 into the result. *)
Definition settles {A} (call : Promise A) (child : Child)
    (decode : Data → Promise A) : Prop :=
  match child with
  | SpawnError msg =>
      call = Rejected (mkError ("Failed to spawn pbhelper: " ++ msg))
  | Closed stdoutChunks stderrChunks code =>
      let stderr_text :=
        String.concat EmptyString (Buffer_toString <$> stderrChunks) in
      match default 1%Z code with
      | 0%Z => call = decode (concat stdoutChunks)
      | n => call = Rejected (mkError (failure_message stderr_text n))
      end
  end.

Definition parsed (d : Data) : Promise JSON :=
  match JSON_parse (Buffer_toString d) with
  | inl msg => Rejected (mkError msg)
  | inr v => Resolved v
  end.

Definition text (d : Data) : Promise string := Resolved (Buffer_toString d).

Definition nothing (d : Data) : Promise unit := Resolved tt.

End BridgeSpec.
End BridgeSpec.

Module InvocationSpec.

(** The eight commands, and those of them that only read. *)
Definition commands : list string :=
  ["list-types"; "read-text"; "write-text"; "read-image"; "write-image";
   "read"; "write"; "clear"].

Definition is_read (c : string) : bool :=
  (c =? "list-types") || (c =? "read-text") || (c =? "read-image")
  || (c =? "read").

(** The pasteboard a call is made on. *)
Definition call_target (c : Call) : string :=
  match c with
  | ClearContents pb | SetString pb _ _ | SetData pb _ _
  | StringForType pb _ | DataForType pb _ | Types pb => pb
  end.



(** An outcome whose calls are all on the pasteboard [target] and that
    left every other pasteboard of the server [w] as it was. *)
Definition works_on (target : string) (w : gmap string Pasteboard)
    (o : Outcome) : Prop :=
  (∀ pb', pb' ≠ target → after o !! pb' = w !! pb')
  ∧ Forall (λ c, call_target c = target) (calls_made o).

End InvocationSpec.

(** Vocabulary for the whole stack: a tool handler of the server, the
    bridge under it, and the adapter as the child. *)
Module StackSpec.
Section StackSpec.
Import Bridge BridgeSpec Server.
Context `{JavaScript}.

(** How a call settles for an outcome of the adapter: [render] turns the
    stdout of a run that exited with 0 into the result; any other exit
    code rejects with the message made from the stderr text. *)
Definition settles_on {A} (call : Promise A) (o : Outcome)
    (render : Data → Promise A) : Prop :=
  match exit_code o with
  | 0%Z => call = render (out o)
  | n =>
      call = Rejected
               (mkError (failure_message (Buffer_toString (utf8 (err o))) n))
  end.

(** A tool result with one text item. *)
Definition says (text : string) : ToolResult :=
  mkToolResult [TextContent text].

Definition says_text (d : Data) : Promise ToolResult :=
  Resolved (says (Buffer_toString d)).

Definition confirms (text : string) (d : Data) : Promise ToolResult :=
  Resolved (says text).

Definition shows_image (mimeType : string) (d : Data) : Promise ToolResult :=
  Resolved (mkToolResult [ImageContent (Buffer_toString d) mimeType]).

Definition lists (JSON_stringify : JSON → string) (d : Data)
  : Promise ToolResult :=
  match JSON_parse (Buffer_toString d) with
  | inl msg => Rejected (mkError msg)
  | inr types => Resolved (says (JSON_stringify types))
  end.

(** A child that closed with the exit code 0. *)
Definition exited_0 (child : Child) : Prop :=
  ∃ stdoutChunks stderrChunks,
    child = Closed stdoutChunks stderrChunks (Some 0%Z).

(** The JavaScript runtime trims the line of [message] to [message]. *)
Definition trims (message : string) : Prop :=
  String_trim (Buffer_toString (utf8 (message ++ newline))) = message.

(** A call that, when it has resolved, had a child that closed with the
    exit code 0; and one that, when it has rejected, carries a message
    that is not empty.  Neither says that the call settles. *)
Definition resolves_only_on_0 {A} (call : Promise A) (child : Child) : Prop :=
  ∀ v, call = Resolved v → exited_0 child.

Definition rejects_with_a_message {A} (call : Promise A) : Prop :=
  ∀ e, call = Rejected e → message e ≠ EmptyString.

End StackSpec.
End StackSpec.

(** * Properties of the adapter *)
Module AdapterFacts.
Section AdapterFacts.
Context `{Foundation} `{AppKit}.
Import Adapter AdapterSpec.

(** ** The pasteboard model *)

Lemma contents_insert_eq (w : gmap string Pasteboard) pb items :
  NSPasteboard.contents (<[pb := items]> w) pb = items.
Proof. unfold NSPasteboard.contents. by rewrite lookup_insert_eq. Qed.

Lemma contents_insert_ne (w : gmap string Pasteboard) pb pb' items :
  pb ≠ pb' →
  NSPasteboard.contents (<[pb := items]> w) pb' = NSPasteboard.contents w pb'.
Proof. intros. unfold NSPasteboard.contents. by rewrite lookup_insert_ne. Qed.

Lemma lookup_type_cons t t' d items :
  NSPasteboard.lookup_type t ((t', d) :: items) =
  if t' =? t then Some d else NSPasteboard.lookup_type t items.
Proof.
  unfold NSPasteboard.lookup_type. cbn [find fst]. by destruct (t' =? t).
Qed.


Lemma lookup_set_type_eq t d items :
  NSPasteboard.lookup_type t (NSPasteboard.set_type t d items) = Some d.
Proof.
  induction items as [|[t' d'] items IH]; cbn [NSPasteboard.set_type].
  - by rewrite lookup_type_cons, String.eqb_refl.
  - destruct (t' =? t) eqn:E; rewrite lookup_type_cons.
    + by rewrite String.eqb_refl.
    + by rewrite E.
Qed.

Lemma lookup_set_type_ne t t' d items :
  t ≠ t' →
  NSPasteboard.lookup_type t' (NSPasteboard.set_type t d items) =
  NSPasteboard.lookup_type t' items.
Proof.
  intros Hne. apply String.eqb_neq in Hne.
  induction items as [|[t0 d0] items IH]; cbn [NSPasteboard.set_type].
  - by rewrite lookup_type_cons, Hne.
  - destruct (t0 =? t) eqn:E; rewrite !lookup_type_cons.
    + apply String.eqb_eq in E as ->. by rewrite Hne.
    + by rewrite IH.
Qed.

(** ** What each command does, in closed form *)

Ltac run :=
  unfold run_cmd, fresh, cmdListTypes, cmdReadText, cmdWriteText,
    cmdReadImage, cmdWriteImage, cmdRead, cmdWrite, cmdClear, exitError,
    printUsage, printError, readStdin,
    NSPasteboard.clearContents, NSPasteboard.setString, NSPasteboard.setData,
    NSPasteboard.store,
    NSPasteboard.data_forType, NSPasteboard.string_forType,
    NSPasteboard.types,
    Cmd.bind, Cmd.ret, Cmd.exit, Cmd.get_pasteboards, Cmd.put_pasteboards,
    Cmd.write_stdout, Cmd.write_stderr, Cmd.drain_stdin, Cmd.call in *;
  cbn [pasteboards stdin stdout stderr calls
       exit_code out err after calls_made] in *.

Lemma set_png_after_tiff (t p : Data) :
  NSPasteboard.set_type NSPasteboard.png_type p [(NSPasteboard.tiff_type, t)]
  = [(NSPasteboard.tiff_type, t); (NSPasteboard.png_type, p)].
Proof. reflexivity. Qed.

Ltac normalise_store :=
  cbn [pasteboards stdin stdout stderr calls];
  repeat (rewrite contents_insert_eq || rewrite insert_insert_eq
          || rewrite set_png_after_tiff);
  cbn [NSPasteboard.set_type app omap list_omap set_by set_if].

Lemma run_cmdListTypes args input w :
  let pb := getPasteboard (pasteboard args) in
  run_cmd (cmdListTypes args) input w =
  match JSONSerialization_data (fst <$> NSPasteboard.contents w pb)
        ≫= decodeUTF8 with
  | Some str => succeeded (utf8 (str ++ newline)) w [Types pb]
  | None => failed "Failed to serialize types" w [Types pb]
  end.
Proof. run. cbn [default]. by destruct (_ ≫= decodeUTF8). Qed.

Lemma run_cmdReadText args input w :
  let pb := getPasteboard (pasteboard args) in
  run_cmd (cmdReadText args) input w =
  match string_on w pb NSPasteboard.string_type with
  | Some text =>
      succeeded (utf8 text) w [StringForType pb NSPasteboard.string_type]
  | None =>
      failed "No text on pasteboard" w
        [StringForType pb NSPasteboard.string_type]
  end.
Proof. run. unfold string_on, data_on. by destruct (_ ≫= decodeUTF8). Qed.

Lemma run_cmdWriteText args input w :
  let pb := getPasteboard (pasteboard args) in
  run_cmd (cmdWriteText args) input w =
  match decodeUTF8 input with
  | Some text => replaced pb [SetString pb text NSPasteboard.string_type] w
  | None => failed "Invalid UTF-8 input" w []
  end.
Proof.
  run. destruct (decodeUTF8 input); [|done].
  unfold replaced. by normalise_store.
Qed.

(** [first_decodable] on the two candidates is the adapter's cascade. *)
Lemma image_on_eq items :
  image_on items =
  match NSPasteboard.lookup_type NSPasteboard.tiff_type items
        ≫= NSBitmapImageRep_init with
  | Some rep => Some rep
  | None =>
      NSPasteboard.lookup_type NSPasteboard.png_type items
      ≫= NSBitmapImageRep_init
  end.
Proof.
  unfold image_on, first_decodable. cbn.
  destruct (NSPasteboard.lookup_type NSPasteboard.tiff_type items ≫= _);
    [done|].
  by destruct (NSPasteboard.lookup_type NSPasteboard.png_type items ≫= _).
Qed.

Lemma run_cmdReadImage args input w :
  let pb := getPasteboard (pasteboard args) in
  let reads := image_reads pb (NSPasteboard.contents w pb) in
  run_cmd (cmdReadImage args) input w =
  match image_on (NSPasteboard.contents w pb) with
  | Some rep =>
      match representation rep (fileType_of (format args)) with
      | Some outputData =>
          succeeded (utf8 (base64EncodedString outputData)) w reads
      | None => failed ("Failed to convert image to " ++ format args) w reads
      end
  | None => failed "No image on pasteboard" w reads
  end.
Proof.
  cbn zeta. rewrite image_on_eq. unfold image_reads. run.
  destruct (NSPasteboard.lookup_type NSPasteboard.tiff_type _ ≫= _) as [rep|].
  - by destruct (representation rep _).
  - cbn [pasteboards calls app].
    destruct (NSPasteboard.lookup_type NSPasteboard.png_type _ ≫= _) as [rep|];
      [|done].
    by destruct (representation rep _).
Qed.

Lemma run_cmdWriteImage args input w :
  let pb := getPasteboard (pasteboard args) in
  run_cmd (cmdWriteImage args) input w =
  match decodeBase64Input input with
  | Some imageData =>
      match NSBitmapImageRep_init imageData with
      | Some rep => replaced pb (image_sets pb rep (format args)) w
      | None => failed "Failed to decode image data" w []
      end
  | None => failed "Invalid base64 image data" w []
  end.
Proof.
  run. destruct (decodeBase64Input input) as [imageData|]; [|done].
  destruct (NSBitmapImageRep_init imageData) as [rep|]; [|done].
  unfold replaced, image_sets.
  destruct (representation rep tiff), (format args =? "png");
    try destruct (representation rep png); by normalise_store.
Qed.

Lemma run_cmdRead args input w :
  let pb := getPasteboard (pasteboard args) in
  run_cmd (cmdRead args) input w =
  match type args with
  | Some t =>
      match string_on w pb t with
      | Some str => succeeded (utf8 str) w [StringForType pb t]
      | None =>
          match data_on w pb t with
          | Some d =>
              succeeded (utf8 (base64EncodedString d)) w
                [StringForType pb t; DataForType pb t]
          | None =>
              failed ("No data for type " ++ t ++ " on pasteboard") w
                [StringForType pb t; DataForType pb t]
          end
      end
  | None => failed "--type is required for read command" w []
  end.
Proof.
  run. destruct (type args) as [t|]; [|done]. cbn zeta.
  unfold string_on, data_on.
  destruct (_ ≫= decodeUTF8); [done|]. cbn [pasteboards calls app].
  by destruct (NSPasteboard.lookup_type t _).
Qed.

Lemma run_cmdWrite args input w :
  let pb := getPasteboard (pasteboard args) in
  run_cmd (cmdWrite args) input w =
  match type args with
  | Some t =>
      if isBase64 args then
        match decodeBase64Input input with
        | Some decoded => replaced pb [SetData pb decoded t] w
        | None => failed "Invalid base64 data" w []
        end
      else
        match decodeUTF8 input with
        | Some text => replaced pb [SetString pb text t] w
        | None => failed "Invalid UTF-8 input" w []
        end
  | None => failed "--type is required for write command" w []
  end.
Proof.
  run. destruct (type args) as [t|]; [|reflexivity].
  destruct (isBase64 args); run; unfold replaced.
  - destruct (decodeBase64Input input); [|reflexivity]. by normalise_store.
  - destruct (decodeUTF8 input); [|reflexivity]. by normalise_store.
Qed.

Lemma run_cmdClear args input w :
  run_cmd (cmdClear args) input w =
  replaced (getPasteboard (pasteboard args)) [] w.
Proof. by run. Qed.

(** ** Dispatch and argument parsing *)

Ltac dispatched Hc := unfold dispatch; rewrite Hc; reflexivity.

Lemma dispatch_list_types args :
  command args = "list-types" → dispatch args = cmdListTypes args.
Proof. intros Hc. dispatched Hc. Qed.

Lemma dispatch_read_text args :
  command args = "read-text" → dispatch args = cmdReadText args.
Proof. intros Hc. dispatched Hc. Qed.

Lemma dispatch_write_text args :
  command args = "write-text" → dispatch args = cmdWriteText args.
Proof. intros Hc. dispatched Hc. Qed.

Lemma dispatch_read_image args :
  command args = "read-image" → dispatch args = cmdReadImage args.
Proof. intros Hc. dispatched Hc. Qed.

Lemma dispatch_write_image args :
  command args = "write-image" → dispatch args = cmdWriteImage args.
Proof. intros Hc. dispatched Hc. Qed.

Lemma dispatch_read args :
  command args = "read" → dispatch args = cmdRead args.
Proof. intros Hc. dispatched Hc. Qed.

Lemma dispatch_write args :
  command args = "write" → dispatch args = cmdWrite args.
Proof. intros Hc. dispatched Hc. Qed.

Lemma is_write_cases c :
  is_write c = true → c = "write-text" ∨ c = "write-image" ∨ c = "write".
Proof.
  unfold is_write. rewrite !orb_true_iff, !String.eqb_eq. tauto.
Qed.

(** Parsing touches no pasteboard and prints nothing on stdout; when it
    gives up, it has only written to stderr. *)
Lemma parseFlags_frame rest : ∀ args p,
  pasteboards (snd (parseFlags rest args p)) = pasteboards p
  ∧ calls (snd (parseFlags rest args p)) = calls p
  ∧ stdout (snd (parseFlags rest args p)) = stdout p
  ∧ (∀ a, fst (parseFlags rest args p) = Continue a →
          snd (parseFlags rest args p) = p).
Proof.
  induction rest as [rest IH] using (induction_ltof1 _ (@length string)).
  unfold ltof in IH. intros args p. destruct rest as [|a rest]; [by cbn|].
  cbn [parseFlags].
  repeat match goal with
         | |- context [if ?b then _ else _] => destruct b
         end;
    try (destruct rest as [|v rest]);
    try (apply IH; cbn; lia);
    by cbn.
Qed.

Lemma parseArgs_frame argv p :
  pasteboards (snd (parseArgs argv p)) = pasteboards p
  ∧ calls (snd (parseArgs argv p)) = calls p
  ∧ stdout (snd (parseArgs argv p)) = stdout p
  ∧ (∀ a, fst (parseArgs argv p) = Continue a → snd (parseArgs argv p) = p).
Proof.
  destruct argv as [|prog [|cmd rest]]; try by cbn.
  apply parseFlags_frame.
Qed.

(** An invocation whose arguments parse is the command it names. *)
Lemma main_parsed argv args input w :
  fst (parseArgs argv (fresh input w)) = Continue args →
  run_cmd (main argv) input w = run_cmd (dispatch args) input w.
Proof.
  intros Hp. unfold run_cmd, main, Cmd.bind.
  destruct (parseArgs_frame argv (fresh input w))
    as (_ & _ & _ & Hsame).
  specialize (Hsame args Hp).
  destruct (parseArgs argv _) as [r p'] eqn:E. cbn in Hp, Hsame.
  by subst.
Qed.

(** An invocation whose arguments do not parse leaves everything alone. *)
Lemma main_unparsed argv code input w :
  fst (parseArgs argv (fresh input w)) = Exited code →
  exit_code (run_cmd (main argv) input w) = code
  ∧ out (run_cmd (main argv) input w) = []
  ∧ after (run_cmd (main argv) input w) = w
  ∧ calls_made (run_cmd (main argv) input w) = [].
Proof.
  intros Hp. unfold run_cmd, main, Cmd.bind.
  destruct (parseArgs_frame argv (fresh input w))
    as (Hw & Hcalls & Hout & _).
  destruct (parseArgs argv _) as [r p'] eqn:E. cbn in Hp, Hw, Hcalls, Hout.
  subst r. by cbn.
Qed.

(** The argument vectors that the bridge builds all parse, to the
    arguments one expects; an empty pasteboard name is no name. *)
Lemma bridge_arguments_parse prog pasteboard p :
  let parsed args c := parseArgs (prog :: args) p = (Continue c, p) in
  parsed ("list-types" :: Bridge.pbArgs pasteboard)
    (mkArgs "list-types" (named pasteboard) None "png" false)
  ∧ parsed ("read-text" :: Bridge.pbArgs pasteboard)
      (mkArgs "read-text" (named pasteboard) None "png" false)
  ∧ parsed ("write-text" :: Bridge.pbArgs pasteboard)
      (mkArgs "write-text" (named pasteboard) None "png" false)
  ∧ (∀ f, parsed ("read-image" :: "--format" :: f :: Bridge.pbArgs pasteboard)
            (mkArgs "read-image" (named pasteboard) None f false))
  ∧ (∀ f, parsed ("write-image" :: "--format" :: f :: Bridge.pbArgs pasteboard)
            (mkArgs "write-image" (named pasteboard) None f false))
  ∧ (∀ t, parsed ("read" :: "--type" :: t :: Bridge.pbArgs pasteboard)
            (mkArgs "read" (named pasteboard) (Some t) "png" false))
  ∧ (∀ t (b : bool),
       parsed ("write" :: "--type" :: t
                 :: app (if b then ["--base64"] else [])
                      (Bridge.pbArgs pasteboard))
         (mkArgs "write" (named pasteboard) (Some t) "png" b))
  ∧ parsed ("clear" :: Bridge.pbArgs pasteboard)
      (mkArgs "clear" (named pasteboard) None "png" false).
Proof.
  destruct pasteboard as [[|c name]|]; repeat split; intros;
    try match goal with b : bool |- _ => destruct b end; reflexivity.
Qed.

(** ** Failure paths *)

Lemma image_reads_no_mutation pb items :
  filter is_mutation (image_reads pb items) = [].
Proof.
  unfold image_reads.
  by destruct (NSPasteboard.lookup_type NSPasteboard.tiff_type items ≫= _).
Qed.

(** A command that fails has changed no pasteboard: it made no mutating
    call, and the server is as it was. *)
Lemma failure_keeps_pasteboards args input w :
  exit_code (run_cmd (dispatch args) input w) ≠ 0%Z →
  after (run_cmd (dispatch args) input w) = w
  ∧ filter is_mutation (calls_made (run_cmd (dispatch args) input w)) = [].
Proof.
  unfold dispatch.
  repeat match goal with
         | |- context [if ?b then _ else _] => destruct b
         end.
  - rewrite run_cmdListTypes. by destruct (_ ≫= decodeUTF8).
  - rewrite run_cmdReadText. by destruct (string_on _ _ _).
  - rewrite run_cmdWriteText. by destruct (decodeUTF8 input).
  - rewrite run_cmdReadImage.
    destruct (image_on _) as [rep|];
      [destruct (representation rep _)|]; cbn [exit_code after calls_made
        succeeded failed]; rewrite ?image_reads_no_mutation; done.
  - rewrite run_cmdWriteImage.
    destruct (decodeBase64Input input) as [d|]; [|done].
    by destruct (NSBitmapImageRep_init d).
  - rewrite run_cmdRead. destruct (type args); [|done].
    destruct (string_on _ _ _); [done|].
    by destruct (data_on _ _ _).
  - rewrite run_cmdWrite. destruct (type args); [|done].
    destruct (isBase64 args).
    + by destruct (decodeBase64Input input).
    + by destruct (decodeUTF8 input).
  - by rewrite run_cmdClear.
  - done.
Qed.

Lemma main_failure_keeps_pasteboards argv input w :
  exit_code (run_cmd (main argv) input w) ≠ 0%Z →
  after (run_cmd (main argv) input w) = w
  ∧ filter is_mutation (calls_made (run_cmd (main argv) input w)) = [].
Proof.
  destruct (fst (parseArgs argv (fresh input w)))
    as [args|code] eqn:Hp.
  - rewrite (main_parsed _ _ _ _ Hp). apply failure_keeps_pasteboards.
  - intros _. by destruct (main_unparsed _ _ _ _ Hp) as (_ & _ & -> & ->).
Qed.

(** A write that fails has made no pasteboard call at all. *)
Lemma failed_write_makes_no_call args input w :
  is_write (command args) = true →
  exit_code (run_cmd (dispatch args) input w) ≠ 0%Z →
  after (run_cmd (dispatch args) input w) = w
  ∧ calls_made (run_cmd (dispatch args) input w) = [].
Proof.
  intros Hw.
  destruct (is_write_cases _ Hw) as [Hc|[Hc|Hc]].
  - rewrite (dispatch_write_text _ Hc), run_cmdWriteText.
    by destruct (decodeUTF8 input).
  - rewrite (dispatch_write_image _ Hc), run_cmdWriteImage.
    destruct (decodeBase64Input input) as [d|]; [|done].
    by destruct (NSBitmapImageRep_init d).
  - rewrite (dispatch_write _ Hc), run_cmdWrite.
    destruct (type args); [|done]. destruct (isBase64 args).
    + by destruct (decodeBase64Input input).
    + by destruct (decodeUTF8 input).
Qed.

(** ** Whole-item replace *)

Lemma image_sets_item pb rep fmt :
  Forall (is_set_on pb) (image_sets pb rep fmt)
  ∧ omap set_by (image_sets pb rep fmt) = image_item rep fmt.
Proof.
  unfold image_sets, image_item.
  destruct (representation rep tiff), (fmt =? "png");
    try destruct (representation rep png); cbn;
    (split; [repeat constructor|reflexivity]).
Qed.

(** A successful write is one [clearContents] and then calls that set, on
    the same pasteboard, the representations read off its input. *)
Lemma write_outcome args input w :
  is_write (command args) = true →
  exit_code (run_cmd (dispatch args) input w) = 0%Z →
  ∃ sets,
    run_cmd (dispatch args) input w
    = replaced (getPasteboard (pasteboard args)) sets w
    ∧ Forall (is_set_on (getPasteboard (pasteboard args))) sets
    ∧ omap set_by sets = representations_set args input.
Proof.
  intros Hw. unfold representations_set.
  destruct (is_write_cases _ Hw) as [Hc|[Hc|Hc]]; rewrite Hc;
    cbn [String.eqb Ascii.eqb Bool.eqb].
  - rewrite (dispatch_write_text _ Hc), run_cmdWriteText.
    destruct (decodeUTF8 input) as [text|]; [|done]. intros _.
    eexists. split; [reflexivity|]. split; [by repeat constructor|done].
  - rewrite (dispatch_write_image _ Hc), run_cmdWriteImage.
    destruct (decodeBase64Input input) as [d|]; [|done].
    cbn [mbind option_bind].
    destruct (NSBitmapImageRep_init d) as [rep|]; [|done]. intros _.
    eexists. split; [reflexivity|]. apply image_sets_item.
  - rewrite (dispatch_write _ Hc), run_cmdWrite.
    destruct (type args) as [t|]; [|done]. destruct (isBase64 args).
    + destruct (decodeBase64Input input) as [d|]; [|done]. intros _.
      eexists. split; [reflexivity|]. split; [by repeat constructor|done].
    + destruct (decodeUTF8 input) as [text|]; [|done]. intros _.
      eexists. split; [reflexivity|]. split; [by repeat constructor|done].
Qed.

(** Whether a write succeeds is decided by its input alone. *)
Lemma write_exit_code args input w w0 :
  is_write (command args) = true →
  exit_code (run_cmd (dispatch args) input w) =
  exit_code (run_cmd (dispatch args) input w0).
Proof.
  intros Hw.
  destruct (is_write_cases _ Hw) as [Hc|[Hc|Hc]].
  - rewrite (dispatch_write_text _ Hc), !run_cmdWriteText.
    by destruct (decodeUTF8 input).
  - rewrite (dispatch_write_image _ Hc), !run_cmdWriteImage.
    destruct (decodeBase64Input input) as [d|]; [|done].
    by destruct (NSBitmapImageRep_init d).
  - rewrite (dispatch_write _ Hc), !run_cmdWrite.
    destruct (type args); [|done]. destruct (isBase64 args).
    + by destruct (decodeBase64Input input).
    + by destruct (decodeUTF8 input).
Qed.

Lemma image_item_types rep fmt t :
  t ∈ (fst <$> image_item rep fmt) →
  t = NSPasteboard.tiff_type ∨ t = NSPasteboard.png_type.
Proof.
  unfold image_item.
  destruct (representation rep tiff), (fmt =? "png");
    try destruct (representation rep png); cbn;
    rewrite ?elem_of_cons, ?elem_of_nil; tauto.
Qed.

(** C1. Every write of the adapter (write-text, write-image, typed write
    with and without [--base64]) replaces the whole item: its pasteboard
    calls are one [clearContents] of the target pasteboard and, after it,
    the calls that set its representations, so that after a successful
    write the target pasteboard holds exactly the representations that this
    write set, whatever it held before, and no other pasteboard changes.
    In particular, after write-text and then write-image on the same
    pasteboard, the plain-text type is not among the types that list-types
    serialises. *)
Theorem write_replaces_whole_item
    (args : Args) (input : Data) (w : gmap string Pasteboard) :
  is_write (command args) = true →
  exit_code (run_cmd (dispatch args) input w) = 0%Z →
  let pb := getPasteboard (pasteboard args) in
  let w' := after (run_cmd (dispatch args) input w) in
  (∃ sets,
     calls_made (run_cmd (dispatch args) input w) = ClearContents pb :: sets
     ∧ Forall (is_set_on pb) sets
     ∧ omap set_by sets = NSPasteboard.contents w' pb)
  ∧ NSPasteboard.contents w' pb = representations_set args input
  ∧ (∀ w0, NSPasteboard.contents
             (after (run_cmd (dispatch args) input w0)) pb
           = NSPasteboard.contents w' pb)
  ∧ (∀ pb', pb' ≠ pb → w' !! pb' = w !! pb')
  ∧ (∀ argsT text w0 argsL,
       command argsT = "write-text" →
       getPasteboard (pasteboard argsT) = pb →
       exit_code (run_cmd (dispatch argsT) text w0) = 0%Z →
       w = after (run_cmd (dispatch argsT) text w0) →
       command args = "write-image" →
       command argsL = "list-types" →
       getPasteboard (pasteboard argsL) = pb →
       (NSPasteboard.string_type ∈ (fst <$> NSPasteboard.contents w pb))
       ∧ (NSPasteboard.string_type ∉ (fst <$> NSPasteboard.contents w' pb))
       ∧ (run_cmd (dispatch argsL) [] w' =
          match (JSONSerialization_data (fst <$> NSPasteboard.contents w' pb)
                 ≫= decodeUTF8) with
          | Some str => succeeded (utf8 (str ++ newline)) w' [Types pb]
          | None => failed "Failed to serialize types" w' [Types pb]
          end)).
Proof.
  intros Hw Hok pb w'. subst pb w'.
  destruct (write_outcome _ _ _ Hw Hok) as (sets & -> & Hsets & Hitems).
  cbn [after calls_made replaced]. rewrite contents_insert_eq.
  split; [by exists sets|]. split; [done|]. split; [|split].
  - intros w0.
    assert (Hok0 : exit_code (run_cmd (dispatch args) input w0) = 0%Z)
      by (by rewrite (write_exit_code _ _ w0 w Hw)).
    destruct (write_outcome _ _ _ Hw Hok0) as (sets0 & -> & _ & Hitems0).
    cbn [after replaced]. rewrite contents_insert_eq. congruence.
  - intros pb' Hne. by apply lookup_insert_ne.
  - intros argsT text w0 argsL HcT HpbT HokT Hprior HcI HcL HpbL.
    split; [|split].
    + assert (HwT : is_write (command argsT) = true) by by rewrite HcT.
      destruct (write_outcome _ _ _ HwT HokT) as (setsT & HT & _ & HitemsT).
      rewrite HT in Hprior. cbn [after replaced] in Hprior.
      rewrite Hprior, HpbT, contents_insert_eq, HitemsT.
      rewrite (dispatch_write_text _ HcT), run_cmdWriteText in HokT.
      unfold representations_set. rewrite HcT.
      cbn [String.eqb Ascii.eqb Bool.eqb].
      destruct (decodeUTF8 text); [|done]. cbn. left.
    + rewrite Hitems. intros Hin.
      unfold representations_set in Hin. rewrite HcI in Hin.
      cbn [String.eqb Ascii.eqb Bool.eqb] in Hin.
      destruct (decodeBase64Input input ≫= NSBitmapImageRep_init) as [rep|];
        [|by apply elem_of_nil in Hin].
      by destruct (image_item_types _ _ _ Hin).
    + rewrite (dispatch_list_types _ HcL), run_cmdListTypes, HpbL.
      by rewrite contents_insert_eq.
Qed.

(** ** Text *)

Lemma utf8_inj s s' : utf8 s = utf8 s' → s = s'.
Proof.
  unfold utf8. intros Heq.
  by rewrite <- (string_of_list_byte_of_string s),
             <- (string_of_list_byte_of_string s'), Heq.
Qed.

(** C2. For every string [s] that is UTF-8 (decoding its encoding gives it
    back), write-text with payload [s] succeeds, and read-text on the same
    pasteboard right after it succeeds and prints exactly [s]: nothing
    before it, no newline after it, nothing on stderr. *)
Theorem text_round_trip
    (s : string) (argsW argsR : Args) (input : Data)
    (w : gmap string Pasteboard) :
  decodeUTF8 (utf8 s) = Some s →
  command argsW = "write-text" →
  command argsR = "read-text" →
  getPasteboard (pasteboard argsR) = getPasteboard (pasteboard argsW) →
  let pb := getPasteboard (pasteboard argsW) in
  let written := run_cmd (dispatch argsW) (utf8 s) w in
  exit_code written = 0%Z
  ∧ out written = []
  ∧ run_cmd (dispatch argsR) input (after written)
    = succeeded (utf8 s) (after written)
        [StringForType pb NSPasteboard.string_type].
Proof.
  intros Hs HcW HcR Hpb pb written. subst pb written.
  rewrite (dispatch_write_text _ HcW), run_cmdWriteText, Hs.
  cbn [exit_code out after replaced]. split; [done|]. split; [done|].
  rewrite (dispatch_read_text _ HcR), run_cmdReadText, Hpb.
  unfold string_on, data_on.
  rewrite contents_insert_eq. cbn [omap list_omap set_by].
  rewrite lookup_type_cons, String.eqb_refl.
  cbn [mbind option_bind]. by rewrite Hs.
Qed.

(** C5. read-text exits with code 1 and [No text on pasteboard] on stderr
    exactly when the pasteboard yields no plain-text string, and otherwise
    succeeds with that string on stdout.  A successful run with empty
    output means that the empty string was on the pasteboard. *)
Theorem read_text_absence_is_failure
    (args : Args) (input : Data) (w : gmap string Pasteboard) :
  command args = "read-text" →
  let pb := getPasteboard (pasteboard args) in
  let text := string_on w pb NSPasteboard.string_type in
  let o := run_cmd (dispatch args) input w in
  (text = None ↔ exit_code o ≠ 0%Z)
  ∧ (text = None ↔
     o = failed "No text on pasteboard" w
           [StringForType pb NSPasteboard.string_type])
  ∧ (∀ s, text = Some s ↔
          o = succeeded (utf8 s) w [StringForType pb NSPasteboard.string_type])
  ∧ (exit_code o = 0%Z → out o = [] → text = Some EmptyString)
  ∧ (data_on w pb NSPasteboard.string_type = None → text = None).
Proof.
  intros Hc pb text o. subst o.
  rewrite (dispatch_read_text _ Hc), run_cmdReadText.
  fold pb. fold text.
  assert (Habsent : data_on w pb NSPasteboard.string_type = None → text = None).
  { subst text. unfold string_on. by intros ->. }
  destruct text as [s|]; unfold succeeded, failed; cbn.
  - repeat split; try done.
    + intros [= ->]. done.
    + intros [= Hs]. by rewrite (utf8_inj _ _ Hs).
    + intros _ Hs. f_equal. apply utf8_inj. by rewrite Hs.
  - repeat split; try done.
Qed.

(** ** Images *)


Lemma fileType_of_other f : f ≠ "tiff" → fileType_of f = png.
Proof. intros Hf. unfold fileType_of. by apply String.eqb_neq in Hf as ->. Qed.

(** C4. read-image takes the TIFF payload and the PNG payload as two
    candidates, in this order, and works on the first that decodes to a
    bitmap: the PNG payload is read only when the TIFF payload gave no
    bitmap, and a TIFF payload that does not decode falls through to it.
    The bitmap is encoded in the requested format and printed as base64.
    When neither candidate decodes, the command exits with code 1 and
    [No image on pasteboard] on stderr.  (Should the bitmap library have no
    encoding of the chosen bitmap, the command exits with code 1 and
    [Failed to convert image to], followed by the format.) *)
Theorem read_image_candidates
    (args : Args) (input : Data) (w : gmap string Pasteboard) :
  command args = "read-image" →
  let pb := getPasteboard (pasteboard args) in
  let tiffData := data_on w pb NSPasteboard.tiff_type in
  let pngData := data_on w pb NSPasteboard.png_type in
  let chosen := first_decodable [tiffData; pngData] in
  let o := run_cmd (dispatch args) input w in
  (∀ rep, tiffData ≫= NSBitmapImageRep_init = Some rep →
          chosen = Some rep
          ∧ calls_made o = [DataForType pb NSPasteboard.tiff_type])
  ∧ (tiffData ≫= NSBitmapImageRep_init = None →
     chosen = pngData ≫= NSBitmapImageRep_init
     ∧ calls_made o = [DataForType pb NSPasteboard.tiff_type;
                       DataForType pb NSPasteboard.png_type])
  ∧ (∀ rep outputData,
       chosen = Some rep →
       representation rep (fileType_of (format args)) = Some outputData →
       o = succeeded (utf8 (base64EncodedString outputData)) w (calls_made o))
  ∧ (chosen = None →
     o = failed "No image on pasteboard" w
           [DataForType pb NSPasteboard.tiff_type;
            DataForType pb NSPasteboard.png_type])
  ∧ (∀ rep,
       chosen = Some rep →
       representation rep (fileType_of (format args)) = None →
       o = failed ("Failed to convert image to " ++ format args) w
             (calls_made o))
  ∧ fileType_of "png" = png
  ∧ fileType_of "tiff" = tiff.
Proof.
  intros Hc pb tiffData pngData chosen o.
  assert (Hchosen : chosen = match tiffData ≫= NSBitmapImageRep_init with
                             | Some rep => Some rep
                             | None => pngData ≫= NSBitmapImageRep_init
                             end) by apply image_on_eq.
  pose (reads := image_reads pb (NSPasteboard.contents w pb)).
  assert (Ho : o = match chosen with
                   | Some rep =>
                       match representation rep (fileType_of (format args)) with
                       | Some outputData =>
                           succeeded (utf8 (base64EncodedString outputData)) w
                             reads
                       | None =>
                           failed ("Failed to convert image to " ++ format args)
                             w reads
                       end
                   | None => failed "No image on pasteboard" w reads
                   end).
  { subst o. by rewrite (dispatch_read_image _ Hc), run_cmdReadImage. }
  assert (Hcalls : calls_made o = reads).
  { rewrite Ho. destruct chosen as [rep|]; [|done].
    by destruct (representation rep _). }
  assert (Hreads : reads = DataForType pb NSPasteboard.tiff_type
                           :: match tiffData ≫= NSBitmapImageRep_init with
                              | Some _ => []
                              | None => [DataForType pb NSPasteboard.png_type]
                              end) by reflexivity.
  split; [|split; [|split; [|split; [|split]]]].
  - intros rep Hrep. by rewrite Hcalls, Hreads, Hchosen, Hrep.
  - intros Hnone. by rewrite Hcalls, Hreads, Hchosen, Hnone.
  - intros rep outputData Hrep Hout. by rewrite Hcalls, Ho, Hrep, Hout.
  - intros Hnone. rewrite Ho, Hnone, Hreads.
    rewrite Hchosen in Hnone.
    by destruct (tiffData ≫= NSBitmapImageRep_init).
  - intros rep Hrep Hout. by rewrite Hcalls, Ho, Hrep, Hout.
  - done.
Qed.

(** ** Typed read *)

(** C7. For every type identifier [t], read first asks the pasteboard for
    the payload of [t] as a string and prints it as UTF-8 when there is
    one; only when there is none does it ask for the raw payload, which it
    prints in base64; when there is neither, it exits with code 1 and a
    message that names [t]. *)
Theorem read_prefers_string
    (args : Args) (t : string) (input : Data) (w : gmap string Pasteboard) :
  command args = "read" →
  type args = Some t →
  let pb := getPasteboard (pasteboard args) in
  let o := run_cmd (dispatch args) input w in
  (∀ str, string_on w pb t = Some str →
          o = succeeded (utf8 str) w [StringForType pb t])
  ∧ (∀ d, string_on w pb t = None → data_on w pb t = Some d →
          o = succeeded (utf8 (base64EncodedString d)) w
                [StringForType pb t; DataForType pb t])
  ∧ (string_on w pb t = None → data_on w pb t = None →
     o = failed ("No data for type " ++ t ++ " on pasteboard") w
           [StringForType pb t; DataForType pb t]).
Proof.
  intros Hc Ht pb o. subst o pb.
  rewrite (dispatch_read _ Hc), run_cmdRead, Ht.
  split; [|split].
  - by intros str ->.
  - by intros d -> ->.
  - by intros -> ->.
Qed.

(** ** Pasteboard resolution *)

Lemma getPasteboard_custom name :
  name ∉ ["general"; "find"; "font"; "ruler"; "drag"] →
  getPasteboard (Some name) = name.
Proof.
  rewrite !not_elem_of_cons. intros (H1 & H2 & H3 & H4 & H5 & _).
  unfold getPasteboard.
  by rewrite (proj2 (String.eqb_neq _ _) H1), (proj2 (String.eqb_neq _ _) H2),
    (proj2 (String.eqb_neq _ _) H3), (proj2 (String.eqb_neq _ _) H4),
    (proj2 (String.eqb_neq _ _) H5).
Qed.

(** C8. [getPasteboard] is defined on every optional name and cannot
    exit: no flag and [general] give the general pasteboard, so that every
    command runs alike under the two; [find], [font], [ruler] and [drag]
    give the well-known pasteboards; every other string names the
    pasteboard it spells, and the parser takes any value for the flag. *)
Theorem pasteboard_resolution :
  getPasteboard None = Name_general
  ∧ getPasteboard (Some "general") = Name_general
  ∧ getPasteboard (Some "find") = Name_find
  ∧ getPasteboard (Some "font") = Name_font
  ∧ getPasteboard (Some "ruler") = Name_ruler
  ∧ getPasteboard (Some "drag") = Name_drag
  ∧ (∀ name, name ∉ ["general"; "find"; "font"; "ruler"; "drag"] →
             getPasteboard (Some name) = name)
  ∧ (∀ name rest a,
       parseFlags ("--pasteboard" :: name :: rest) a
       = parseFlags rest
           (mkArgs (command a) (Some name) (type a) (format a) (isBase64 a)))
  ∧ (∀ c t f b input w,
       run_cmd (dispatch (mkArgs c None t f b)) input w
       = run_cmd (dispatch (mkArgs c (Some "general") t f b)) input w)
  ∧ (∀ prog c input w,
       run_cmd (main (prog :: c :: Bridge.pbArgs None)) input w
       = run_cmd (main (prog :: c :: Bridge.pbArgs (Some "general"))) input w).
Proof.
  repeat (split; [reflexivity|]).
  split; [apply getPasteboard_custom|].
  repeat (split; [reflexivity|]).
  reflexivity.
Qed.

(** ** Failed writes *)

(** C9. In the three write commands every validation failure (stdin that
    is not UTF-8, stdin that is not base64, image data that does not
    decode) exits before [clearContents]: the process prints its message,
    exits with code 1, has made no pasteboard call and leaves the
    pasteboards as they were.  Whenever a write exits with a code other
    than 0 it has made no pasteboard call, and whenever any invocation of
    the adapter does, it has made no mutating call; the pasteboards are
    unchanged. *)
Theorem failed_write_keeps_pasteboard
    (args : Args) (input : Data) (w : gmap string Pasteboard) :
  is_write (command args) = true →
  let o := run_cmd (dispatch args) input w in
  (exit_code o ≠ 0%Z → after o = w ∧ calls_made o = [])
  ∧ (command args = "write-text" → decodeUTF8 input = None →
     o = failed "Invalid UTF-8 input" w [])
  ∧ (command args = "write-image" → decodeBase64Input input = None →
     o = failed "Invalid base64 image data" w [])
  ∧ (command args = "write-image" →
     ∀ imageData, decodeBase64Input input = Some imageData →
                  NSBitmapImageRep_init imageData = None →
                  o = failed "Failed to decode image data" w [])
  ∧ (command args = "write" → is_Some (type args) → isBase64 args = true →
     decodeBase64Input input = None →
     o = failed "Invalid base64 data" w [])
  ∧ (command args = "write" → is_Some (type args) → isBase64 args = false →
     decodeUTF8 input = None →
     o = failed "Invalid UTF-8 input" w [])
  ∧ (∀ argv,
       let o := run_cmd (main argv) input w in
       exit_code o ≠ 0%Z →
       after o = w ∧ filter is_mutation (calls_made o) = []).
Proof.
  intros Hw o. subst o.
  split; [by apply failed_write_makes_no_call|].
  split; [|split; [|split; [|split; [|split]]]].
  - intros Hc Hbad. by rewrite (dispatch_write_text _ Hc), run_cmdWriteText, Hbad.
  - intros Hc Hbad.
    by rewrite (dispatch_write_image _ Hc), run_cmdWriteImage, Hbad.
  - intros Hc imageData Hdec Hbad.
    by rewrite (dispatch_write_image _ Hc), run_cmdWriteImage, Hdec, Hbad.
  - intros Hc [t Ht] Hb Hbad.
    by rewrite (dispatch_write _ Hc), run_cmdWrite, Ht, Hb, Hbad.
  - intros Hc [t Ht] Hb Hbad.
    by rewrite (dispatch_write _ Hc), run_cmdWrite, Ht, Hb, Hbad.
  - intros argv. apply main_failure_keeps_pasteboards.
Qed.

(** ** The format flag *)

(** C10. The value of [--format] is never checked.  The parser stores any
    string.  read-image with a format other than [tiff] does what it does
    with [png]: same exit code, same output, same calls, and the PNG
    encoding in base64 with exit code 0 whenever there is an image that
    encodes.  write-image with a format other than [png] does what it does
    with [tiff]: only the TIFF representation is set.  The exit code of
    write-image does not depend on the format, and read-image fails only
    for want of an image or of its encoding. *)
Theorem format_is_not_validated
    (f : string) (c : string) (name t : option string) (b : bool)
    (input : Data) (w : gmap string Pasteboard) :
  let args fmt := mkArgs c name t fmt b in
  let pb := getPasteboard name in
  let run fmt := run_cmd (dispatch (args fmt)) input w in
  (∀ rest a,
     parseFlags ("--format" :: f :: rest) a
     = parseFlags rest
         (mkArgs (command a) (pasteboard a) (type a) f (isBase64 a)))
  ∧ (c = "read-image" → f ≠ "tiff" →
     exit_code (run f) = exit_code (run "png")
     ∧ out (run f) = out (run "png")
     ∧ after (run f) = after (run "png")
     ∧ calls_made (run f) = calls_made (run "png")
     ∧ (∀ rep pngData,
          image_on (NSPasteboard.contents w pb) = Some rep →
          representation rep png = Some pngData →
          run f = succeeded (utf8 (base64EncodedString pngData)) w
                    (calls_made (run f))))
  ∧ (c = "write-image" → f ≠ "png" →
     run f = run "tiff"
     ∧ (∀ imageData rep,
          decodeBase64Input input = Some imageData →
          NSBitmapImageRep_init imageData = Some rep →
          run f = replaced pb
                    (set_if pb NSPasteboard.tiff_type (representation rep tiff))
                    w))
  ∧ (c = "write-image" → ∀ f', exit_code (run f) = exit_code (run f'))
  ∧ (c = "read-image" → exit_code (run f) ≠ 0%Z →
     image_on (NSPasteboard.contents w pb) = None
     ∨ ∃ rep, image_on (NSPasteboard.contents w pb) = Some rep
              ∧ representation rep (fileType_of f) = None).
Proof.
  intros args pb run. subst args pb run. cbn beta.
  split; [reflexivity|].
  split; [|split; [|split]].
  - intros -> Hf.
    rewrite !(dispatch_read_image (mkArgs "read-image" name t _ b) eq_refl).
    rewrite !run_cmdReadImage. cbn [pasteboard format].
    rewrite (fileType_of_other _ Hf).
    change (fileType_of "png") with png.
    destruct (image_on _) as [rep|]; [|by repeat split].
    destruct (representation rep png) as [pngData|] eqn:Hpng;
      (split; [done|]; split; [done|]; split; [done|]; split; [done|]);
      intros rep' pngData' [= <-] Hpng'; unfold succeeded; cbn [calls_made];
      congruence.
  - intros -> Hf.
    rewrite !(dispatch_write_image (mkArgs "write-image" name t _ b) eq_refl).
    rewrite !run_cmdWriteImage. cbn [pasteboard format].
    assert (Hsets : ∀ rep g, g ≠ "png" →
                             image_sets (getPasteboard name) rep g
                             = set_if (getPasteboard name)
                                 NSPasteboard.tiff_type
                                 (representation rep tiff)).
    { intros rep g Hg. unfold image_sets.
      apply String.eqb_neq in Hg as ->. apply app_nil_r. }
    split.
    + destruct (decodeBase64Input input) as [imageData|]; [|done].
      destruct (NSBitmapImageRep_init imageData) as [rep|]; [|done].
      by rewrite (Hsets rep f Hf), (Hsets rep "tiff").
    + intros imageData rep -> ->. by rewrite (Hsets rep f Hf).
  - intros -> f'.
    rewrite !(dispatch_write_image (mkArgs "write-image" name t _ b) eq_refl).
    rewrite !run_cmdWriteImage.
    destruct (decodeBase64Input input) as [imageData|]; [|done].
    by destruct (NSBitmapImageRep_init imageData).
  - intros ->.
    rewrite (dispatch_read_image (mkArgs "read-image" name t _ b) eq_refl).
    rewrite run_cmdReadImage. cbn [pasteboard format].
    destruct (image_on _) as [rep|]; [|by left].
    destruct (representation rep (fileType_of f)) eqn:E; [done|].
    intros _. right. by exists rep.
Qed.

End AdapterFacts.
End AdapterFacts.

(** * Properties of the bridge *)
Module BridgeFacts.
Section BridgeFacts.
Import Bridge BridgeSpec.
Context `{JavaScript}.
Variable spawn : list string → option string → Child.

(** ** [checkResult] *)

Lemma or_else_spec a b :
  or_else a b = if a =? EmptyString then b else a.
Proof. by destruct a. Qed.

Lemma checkResult_ok result :
  exitCode result = 0%Z → checkResult result = Resolved tt.
Proof. intros Hc. unfold checkResult. by rewrite Hc. Qed.

Lemma checkResult_rejects result :
  exitCode result ≠ 0%Z →
  checkResult result
  = Rejected (mkError (failure_message (stderr result) (exitCode result))).
Proof.
  intros Hc. unfold checkResult, failure_message.
  apply Z.eqb_neq in Hc as ->. cbn [negb]. by rewrite or_else_spec.
Qed.

(** Every operation is [execPbHelper], then [checkResult], then a
    decoder of stdout that never looks at stderr. *)
Lemma call_settles {A} args stdinData (decode : Data → Promise A) :
  settles
    (await (execPbHelper spawn args stdinData) (λ result,
       await (checkResult result) (λ _, decode (stdout result))))
    (spawn args stdinData) decode.
Proof.
  unfold settles, execPbHelper.
  destruct (spawn args stdinData) as [msg|so se code]; [done|].
  cbn [await]. destruct (default 1%Z code) as [|n|n] eqn:Hcode.
  - by rewrite checkResult_ok.
  - by rewrite checkResult_rejects.
  - by rewrite checkResult_rejects.
Qed.

Lemma void_call_settles args stdinData :
  settles (await (execPbHelper spawn args stdinData) checkResult)
    (spawn args stdinData) nothing.
Proof.
  pose proof (call_settles args stdinData nothing) as Hs.
  unfold settles, execPbHelper in *.
  destruct (spawn args stdinData) as [msg|so se code]; [done|].
  cbn [await] in *.
  by destruct (checkResult _) as [[]|e].
Qed.

(** C6. For every operation of the bridge and every run of the adapter
    process: when the exit code is not 0 the call rejects with the trimmed
    stderr text as its message, or with [pbhelper exited with code N] when
    that is empty; when it is 0 the call settles with the decoded stdout
    (parsed as JSON for [listTypes], as text for the reads, nothing for
    the operations that return nothing), whatever is on stderr: two runs
    that exit with 0 and differ in stderr only settle a call alike. *)
Theorem bridge_contract :
  (∀ pasteboard,
     settles (listTypes spawn pasteboard)
       (spawn ("list-types" :: pbArgs pasteboard) None) parsed)
  ∧ (∀ pasteboard,
       settles (readText spawn pasteboard)
         (spawn ("read-text" :: pbArgs pasteboard) None) text)
  ∧ (∀ s pasteboard,
       settles (writeText spawn s pasteboard)
         (spawn ("write-text" :: pbArgs pasteboard) (Some s)) nothing)
  ∧ (∀ pasteboard format,
       settles (readImage spawn pasteboard format)
         (spawn ("read-image" :: "--format" :: format :: pbArgs pasteboard)
            None) text)
  ∧ (∀ base64Data pasteboard format,
       settles (writeImage spawn base64Data pasteboard format)
         (spawn ("write-image" :: "--format" :: format :: pbArgs pasteboard)
            (Some base64Data)) nothing)
  ∧ (∀ type pasteboard,
       settles (readData spawn type pasteboard)
         (spawn ("read" :: "--type" :: type :: pbArgs pasteboard) None) text)
  ∧ (∀ type data isBase64 pasteboard,
       settles (writeData spawn type data isBase64 pasteboard)
         (spawn ("write" :: "--type" :: type
                   :: app (if isBase64 then ["--base64"] else [])
                        (pbArgs pasteboard)) (Some data)) nothing)
  ∧ (∀ pasteboard,
       settles (clear spawn pasteboard)
         (spawn ("clear" :: pbArgs pasteboard) None) nothing)
  ∧ (∀ stderr_text code,
       String_trim stderr_text = EmptyString →
       failure_message stderr_text code
       = "pbhelper exited with code " ++ Number_toString code)
  ∧ (∀ stderr_text code,
       String_trim stderr_text ≠ EmptyString →
       failure_message stderr_text code = String_trim stderr_text)
  ∧ (∀ A (decode : Data → Promise A) (call call' : Promise A)
       stdoutChunks stderrChunks stderrChunks',
       settles call (Closed stdoutChunks stderrChunks (Some 0%Z)) decode →
       settles call' (Closed stdoutChunks stderrChunks' (Some 0%Z)) decode →
       call = call').
Proof.
  repeat split; intros;
    try apply (call_settles _ _ parsed);
    try apply (call_settles _ _ text);
    try apply void_call_settles.
  - unfold failure_message.
    match goal with Hempty : String_trim _ = _ |- _ => by rewrite Hempty end.
  - unfold failure_message. cbn zeta.
    match goal with
    | Hfull : String_trim _ ≠ _ |- _ => by apply String.eqb_neq in Hfull as ->
    end.
  - unfold settles in *. cbn in *. congruence.
Qed.

End BridgeFacts.
End BridgeFacts.

(** * The reference libraries on known vectors *)
Module ReferenceFacts.

(** The strings that the reference decoder reads back are those whose
    bytes are well-formed UTF-8. *)
Lemma decodeUTF8_utf8 (s : string) :
  Reference.decodeUTF8 (utf8 s) = Some s
  ↔ Reference.well_formed (Byte.to_N <$> utf8 s) = true.
Proof.
  unfold Reference.decodeUTF8, utf8.
  destruct (Reference.well_formed _).
  - by rewrite string_of_list_byte_of_string.
  - by split.
Qed.

Example utf8_two_bytes : Reference.well_formed [195; 169]%N = true.
Proof. reflexivity. Qed.

Example utf8_four_bytes : Reference.well_formed [240; 159; 140; 141]%N = true.
Proof. reflexivity. Qed.

Example utf8_overlong : Reference.well_formed [192; 128]%N = false.
Proof. reflexivity. Qed.

Example utf8_surrogate : Reference.well_formed [237; 160; 128]%N = false.
Proof. reflexivity. Qed.

Example utf8_truncated : Reference.well_formed [226; 130]%N = false.
Proof. reflexivity. Qed.

Example utf8_beyond_range : Reference.well_formed [244; 144; 128; 128]%N = false.
Proof. reflexivity. Qed.

(** The test vectors of RFC 4648, section 10. *)
Example base64_vectors :
  Reference.base64EncodedString <$>
    (utf8 <$> [EmptyString; "f"; "fo"; "foo"; "foob"; "fooba"; "foobar"])
  = [EmptyString; "Zg=="; "Zm8="; "Zm9v"; "Zm9vYg=="; "Zm9vYmE="; "Zm9vYmFy"].
Proof. reflexivity. Qed.

Example base64_vectors_back :
  Reference.base64Decoded <$>
    [EmptyString; "Zg=="; "Zm8="; "Zm9v"; "Zm9vYg=="; "Zm9vYmE="; "Zm9vYmFy"]
  = Some <$>
      (utf8 <$> [EmptyString; "f"; "fo"; "foo"; "foob"; "fooba"; "foobar"]).
Proof. reflexivity. Qed.

Example base64_rejects :
  Reference.base64Decoded <$> ["Zg"; "Zg="; "Z g="; "=Zg="; "Zm9v" ++ newline]
  = [None; None; None; None; None].
Proof. reflexivity. Qed.

Example trim_both_ends :
  Reference.trim (" " ++ newline ++ "Zm9v  " ++ newline) = "Zm9v".
Proof. reflexivity. Qed.

End ReferenceFacts.

(** * The repository's test suite, on the reference libraries *)
Module Tests.
Import Bridge ReferenceJS Samples.

Example readText_throws_when_empty :
  readText (spawn_on ∅) None = Rejected (mkError "No text on pasteboard").
Proof. vm_compute. reflexivity. Qed.

Example readImage_throws_when_empty :
  readImage (spawn_on ∅) None "png"
  = Rejected (mkError "No image on pasteboard").
Proof. vm_compute. reflexivity. Qed.

Example readData_throws_when_empty :
  readData (spawn_on ∅) "public.utf8-plain-text" None
  = Rejected (mkError "No data for type public.utf8-plain-text on pasteboard").
Proof. vm_compute. reflexivity. Qed.

Example listTypes_empty_after_clear :
  listTypes (spawn_on (server_after ["clear"] EmptyString ∅)) None
  = Resolved [].
Proof. vm_compute. reflexivity. Qed.

Example writeText_then_readText :
  writeText (spawn_on ∅) "hello" None = Resolved tt
  ∧ readText (spawn_on (server_after ["write-text"] "hello" ∅)) None
    = Resolved "hello".
Proof. split; vm_compute; reflexivity. Qed.

Example writeImage_sets_image_types :
  listTypes
    (spawn_on (server_after ["write-image"; "--format"; "png"]
                 TEST_PNG_BASE64 ∅)) None
  = Resolved ["public.tiff"; "public.png"].
Proof. vm_compute. reflexivity. Qed.

Example readImage_as_tiff :
  readImage
    (spawn_on (server_after ["write-image"; "--format"; "png"]
                 TEST_PNG_BASE64 ∅)) None "tiff"
  = Resolved
      (Reference.base64EncodedString (app Reference.tiff_signature pixels)).
Proof. vm_compute. reflexivity. Qed.

Example writeData_base64_reads_back_as_text :
  readData
    (spawn_on (server_after ["write"; "--type"; "com.test.b64"; "--base64"]
                 "YmluYXJ5LWxpa2UgY29udGVudA==" ∅)) "com.test.b64" None
  = Resolved "binary-like content".
Proof. vm_compute. reflexivity. Qed.

Example missing_flag_value :
  Reference.pbhelper ["pbhelper"; "read"; "--type"] [] ∅
  = mkOutcome 1 [] ("Missing value for --type" ++ newline) ∅ [].
Proof. vm_compute. reflexivity. Qed.


Example invalid_utf8_is_refused :
  Reference.pbhelper ["pbhelper"; "write-text"] [xff] ∅
  = mkOutcome 1 [] ("Invalid UTF-8 input" ++ newline) ∅ [].
Proof. vm_compute. reflexivity. Qed.

Example write_image_calls :
  calls_made
    (Reference.pbhelper ["pbhelper"; "write-image"] (utf8 TEST_PNG_BASE64) ∅)
  = [ClearContents "Apple CFPasteboard general";
     SetData "Apple CFPasteboard general"
       (app Reference.tiff_signature pixels) "public.tiff";
     SetData "Apple CFPasteboard general"
       (app Reference.png_signature pixels) "public.png"].
Proof. vm_compute. reflexivity. Qed.

Example read_calls_on_custom_pasteboard :
  calls_made
    (Reference.pbhelper
       ["pbhelper"; "read"; "--pasteboard"; "scratch"; "--type"; "com.test.bin"]
       [] ∅)
  = [StringForType "scratch" "com.test.bin";
     DataForType "scratch" "com.test.bin"].
Proof. vm_compute. reflexivity. Qed.

(** A payload under the plain-text type that does not read as a string is
    listed by list-types and is no text for read-text. *)
Example read_text_needs_a_string :
  let w := server_after ["write"; "--type"; "public.utf8-plain-text"; "--base64"]
             "/w==" ∅ in
  listTypes (spawn_on w) None = Resolved ["public.utf8-plain-text"]
  ∧ readText (spawn_on w) None = Rejected (mkError "No text on pasteboard")
  ∧ readData (spawn_on w) "public.utf8-plain-text" None = Resolved "/w==".
Proof. repeat split; vm_compute; reflexivity. Qed.

Example generic_failure_message :
  checkResult (mkExecResult [] (" " ++ newline) 3)
  = Rejected (mkError "pbhelper exited with code 3").
Proof. vm_compute. reflexivity. Qed.

End Tests.

(** * The theorems at concrete invocations, on the reference libraries *)
Module Witnesses.
Import Adapter AdapterSpec Bridge BridgeSpec ReferenceJS Samples.
#[local] Existing Instance Reference.foundation.
#[local] Existing Instance Reference.appkit.

Lemma write_replaces_whole_item_witness :
  let args := mkArgs "write-image" None None "png" false in
  let o := run_cmd (dispatch args) png_input with_text in
  is_write (command args) = true
  ∧ exit_code o = 0%Z
  ∧ fst <$> NSPasteboard.contents with_text (getPasteboard None)
    = ["public.utf8-plain-text"]
  ∧ NSPasteboard.contents (after o) (getPasteboard None)
    = [("public.tiff", app Reference.tiff_signature pixels);
       ("public.png", app Reference.png_signature pixels)]
  ∧ ∃ sets, calls_made o = ClearContents Name_general :: sets
            ∧ Forall (is_set_on Name_general) sets.
Proof.
  intros args o.
  assert (Hw : is_write (command args) = true) by reflexivity.
  assert (Hok : exit_code o = 0%Z) by (vm_compute; reflexivity).
  destruct (AdapterFacts.write_replaces_whole_item
              args png_input with_text Hw Hok)
    as ((sets & Hcalls & Hsets & _) & Hitems & _).
  split; [exact Hw|]. split; [exact Hok|]. split; [vm_compute; reflexivity|].
  split.
  - etransitivity; [exact Hitems|]. vm_compute. reflexivity.
  - exists sets. split; [exact Hcalls|exact Hsets].
Defined.

Lemma text_round_trip_witness :
  let argsW := mkArgs "write-text" None None "png" false in
  let argsR := mkArgs "read-text" (Some "general") None "png" false in
  let written := run_cmd (dispatch argsW) (utf8 sample_text) with_text in
  decodeUTF8 (utf8 sample_text) = Some sample_text
  ∧ run_cmd (dispatch argsR) [] (after written)
    = succeeded (utf8 sample_text) (after written)
        [StringForType Name_general NSPasteboard.string_type].
Proof.
  intros argsW argsR written.
  assert (Hs : decodeUTF8 (utf8 sample_text) = Some sample_text)
    by (vm_compute; reflexivity).
  split; [exact Hs|].
  exact (proj2 (proj2 (AdapterFacts.text_round_trip sample_text argsW argsR []
                         with_text Hs eq_refl eq_refl eq_refl))).
Defined.


Lemma read_image_candidates_witness :
  let args := mkArgs "read-image" None None "tiff" false in
  let tiffData := data_on with_broken_tiff Name_general NSPasteboard.tiff_type in
  let pngData := data_on with_broken_tiff Name_general NSPasteboard.png_type in
  let o := run_cmd (dispatch args) [] with_broken_tiff in
  tiffData = Some [x00; x01]
  ∧ tiffData ≫= NSBitmapImageRep_init = None
  ∧ first_decodable [tiffData; pngData] = Some pixels
  ∧ representation pixels (fileType_of "tiff")
    = Some (app Reference.tiff_signature pixels)
  ∧ calls_made o = [DataForType Name_general NSPasteboard.tiff_type;
                    DataForType Name_general NSPasteboard.png_type]
  ∧ o = succeeded
          (utf8 (base64EncodedString (app Reference.tiff_signature pixels)))
          with_broken_tiff (calls_made o).
Proof.
  intros args tiffData pngData o.
  assert (Hbroken : tiffData ≫= NSBitmapImageRep_init = None)
    by (vm_compute; reflexivity).
  assert (Hchosen : first_decodable [tiffData; pngData] = Some pixels)
    by (vm_compute; reflexivity).
  assert (Hout : representation pixels (fileType_of "tiff")
                 = Some (app Reference.tiff_signature pixels))
    by reflexivity.
  destruct (AdapterFacts.read_image_candidates args [] with_broken_tiff eq_refl)
    as (_ & Hfall & Hsucc & _).
  split; [vm_compute; reflexivity|]. split; [exact Hbroken|].
  split; [exact Hchosen|]. split; [exact Hout|].
  split; [exact (proj2 (Hfall Hbroken))|].
  exact (Hsucc pixels _ Hchosen Hout).
Defined.

Lemma read_text_absence_is_failure_witness :
  let args := mkArgs "read-text" None None "png" false in
  let w := server_after ["write-text"] EmptyString with_text in
  exit_code (run_cmd (dispatch args) [] w) = 0%Z
  ∧ out (run_cmd (dispatch args) [] w) = []
  ∧ string_on w Name_general NSPasteboard.string_type = Some EmptyString
  ∧ (string_on ∅ Name_general NSPasteboard.string_type = None
     ∧ run_cmd (dispatch args) [] ∅
       = failed "No text on pasteboard" ∅
           [StringForType Name_general NSPasteboard.string_type]).
Proof.
  intros args w.
  assert (Hok : exit_code (run_cmd (dispatch args) [] w) = 0%Z)
    by (vm_compute; reflexivity).
  assert (Hout : out (run_cmd (dispatch args) [] w) = [])
    by (vm_compute; reflexivity).
  assert (Hnone : string_on ∅ Name_general NSPasteboard.string_type = None)
    by reflexivity.
  split; [exact Hok|]. split; [exact Hout|]. split.
  - exact (proj1 (proj2 (proj2 (proj2
             (AdapterFacts.read_text_absence_is_failure args [] w eq_refl))))
             Hok Hout).
  - split; [exact Hnone|].
    exact (proj1 (proj1 (proj2
             (AdapterFacts.read_text_absence_is_failure args [] ∅ eq_refl)))
             Hnone).
Defined.

Lemma read_prefers_string_witness :
  let args := mkArgs "read" None (Some "com.test.bin") "png" false in
  string_on with_binary Name_general "com.test.bin" = None
  ∧ data_on with_binary Name_general "com.test.bin" = Some [xff]
  ∧ run_cmd (dispatch args) [] with_binary
    = succeeded (utf8 "/w==") with_binary
        [StringForType Name_general "com.test.bin";
         DataForType Name_general "com.test.bin"].
Proof.
  intros args.
  assert (Hs : string_on with_binary Name_general "com.test.bin" = None)
    by (vm_compute; reflexivity).
  assert (Hd : data_on with_binary Name_general "com.test.bin" = Some [xff])
    by (vm_compute; reflexivity).
  split; [exact Hs|]. split; [exact Hd|].
  exact (proj1 (proj2 (AdapterFacts.read_prefers_string args "com.test.bin" []
                         with_binary eq_refl eq_refl)) [xff] Hs Hd).
Defined.

Lemma pasteboard_resolution_witness :
  ("scratch" ∉ ["general"; "find"; "font"; "ruler"; "drag"])
  ∧ getPasteboard (Some "scratch") = "scratch".
Proof.
  assert (Hname : "scratch" ∉ ["general"; "find"; "font"; "ruler"; "drag"]).
  { rewrite !not_elem_of_cons. repeat split; try discriminate.
    apply not_elem_of_nil. }
  split; [exact Hname|].
  destruct AdapterFacts.pasteboard_resolution
    as (_ & _ & _ & _ & _ & _ & Hcustom & _).
  exact (Hcustom "scratch" Hname).
Defined.

Lemma failed_write_keeps_pasteboard_witness :
  let args := mkArgs "write-image" None None "png" false in
  let o := run_cmd (dispatch args) (utf8 "not base64!") with_text in
  is_write (command args) = true
  ∧ exit_code o ≠ 0%Z
  ∧ decodeBase64Input (utf8 "not base64!") = None
  ∧ after o = with_text
  ∧ calls_made o = []
  ∧ o = failed "Invalid base64 image data" with_text [].
Proof.
  intros args o.
  assert (Hw : is_write (command args) = true) by reflexivity.
  assert (Hne : exit_code o ≠ 0%Z) by (vm_compute; discriminate).
  assert (Hbad : decodeBase64Input (utf8 "not base64!") = None)
    by (vm_compute; reflexivity).
  destruct (AdapterFacts.failed_write_keeps_pasteboard
              args (utf8 "not base64!") with_text Hw)
    as (Hkeep & _ & Hb64 & _).
  split; [exact Hw|]. split; [exact Hne|]. split; [exact Hbad|].
  split; [exact (proj1 (Hkeep Hne))|].
  split; [exact (proj2 (Hkeep Hne))|exact (Hb64 eq_refl Hbad)].
Defined.

Lemma format_is_not_validated_witness :
  let w := server_after ["write-image"] "iVBORwECAwQ=" ∅ in
  let read fmt :=
    run_cmd (dispatch (mkArgs "read-image" None None fmt false)) [] w in
  let write fmt :=
    run_cmd (dispatch (mkArgs "write-image" None None fmt false))
      png_input with_text in
  "jpeg" ≠ "tiff" ∧ "jpeg" ≠ "png"
  ∧ exit_code (read "jpeg") = exit_code (read "png")
  ∧ out (read "jpeg") = out (read "png")
  ∧ write "jpeg" = write "tiff".
Proof.
  intros w read write.
  assert (H1 : "jpeg" ≠ "tiff") by discriminate.
  assert (H2 : "jpeg" ≠ "png") by discriminate.
  split; [exact H1|]. split; [exact H2|].
  destruct (AdapterFacts.format_is_not_validated
              "jpeg" "read-image" None None false [] w)
    as (_ & Hread & _).
  destruct (Hread eq_refl H1) as (Hcode & Hout & _).
  split; [exact Hcode|]. split; [exact Hout|].
  destruct (AdapterFacts.format_is_not_validated
              "jpeg" "write-image" None None false png_input with_text)
    as (_ & _ & Hwrite & _).
  exact (proj1 (Hwrite eq_refl H2)).
Defined.

Lemma bridge_contract_witness :
  String_trim (" " ++ newline) = EmptyString
  ∧ failure_message (" " ++ newline) 3 = "pbhelper exited with code 3"
  ∧ readText (spawn_on ∅) None
    = Rejected (mkError (failure_message ("No text on pasteboard" ++ newline) 1))
  ∧ readText (spawn_on with_text) None = text (utf8 "hello").
Proof.
  assert (Hempty : String_trim (" " ++ newline) = EmptyString) by reflexivity.
  destruct (BridgeFacts.bridge_contract (spawn_on ∅))
    as (_ & Hread & _ & _ & _ & _ & _ & _ & Hgeneric & _).
  split; [exact Hempty|].
  split; [exact (Hgeneric (" " ++ newline) 3%Z Hempty)|].
  split; [exact (Hread None)|].
  destruct (BridgeFacts.bridge_contract (spawn_on with_text))
    as (_ & Hread' & _).
  exact (Hread' None).
Defined.

End Witnesses.

(** * Further properties of the adapter *)

Module StdinFacts.
Import Stdin.

Lemma capacity_positive : capacity ≠ 0.
Proof. unfold capacity. apply Nat.pow_nonzero. discriminate. Qed.

(** The loop hands back everything that was gathered and everything that
    was left, and leaves the stream at its end. *)
Lemma readLoop_all count stream data :
  count ≠ 0 → readLoop count stream data = (app data stream, []).
Proof.
  intros Hcount. funelim (readLoop count stream data).
  - cbn [fread fst snd] in *.
    destruct stream as [|b0 stream].
    + by rewrite drop_nil, app_nil_r.
    + destruct count; [done|discriminate].
  - cbn [fread fst snd] in *.
    match goal with
    | IH : _ → readLoop _ _ _ = _ |- _ => rewrite (IH Hcount)
    end.
    by rewrite <- Hread, <- app_assoc, take_drop.
Qed.

(** X1. The read loop of [readStdin] returns the whole of standard input,
    whatever its length (nothing, less than one buffer, many buffers and a
    rest), and leaves nothing unread: the loop is the one-step read that
    the commands are modelled with. *)
Theorem readStdin_reads_everything (p : Process) :
  readStdin p = Adapter.readStdin p
  ∧ fst (readStdin p) = Continue (stdin p)
  ∧ stdin (snd (readStdin p)) = [].
Proof.
  unfold readStdin, Adapter.readStdin, Cmd.drain_stdin.
  by rewrite (readLoop_all _ _ _ capacity_positive).
Qed.

(** With a buffer of four bytes: two buffers and three bytes more. *)
Example readLoop_three_chunks :
  readLoop 4 (utf8 "hello world") [] = (utf8 "hello world", []).
Proof. reflexivity. Qed.

End StdinFacts.

Module InvocationFacts.
Section InvocationFacts.
Context `{Foundation} `{AppKit}.
Import Adapter AdapterSpec InvocationSpec AdapterFacts.

(** ** Argument parsing *)

Ltac parse_cases IH :=
  cbn [parseFlags];
  repeat match goal with
         | |- context [if ?b then _ else _] => destruct b
         end;
  try match goal with
      | |- context [match ?l with [] => _ | _ :: _ => _ end] =>
          destruct l
      end;
  try (apply IH; cbn; lia).


(** What a parse that gives up does is decided by the flags alone. *)
Lemma parseFlags_exit_any rest : ∀ args args' p code,
  fst (parseFlags rest args p) = Exited code →
  parseFlags rest args' p = parseFlags rest args p.
Proof.
  induction rest as [rest IH] using (induction_ltof1 _ (@length string)).
  unfold ltof in IH. intros args args' p code.
  destruct rest as [|a rest]; [done|].
  parse_cases IH; try done.
  all: intros Hexit; eapply IH; [cbn; lia|exact Hexit].
Qed.

(** Flags that parse can be followed by more: the rest is parsed from the
    arguments gathered so far. *)
Lemma parseFlags_app xs : ∀ ys args args' p,
  fst (parseFlags xs args p) = Continue args' →
  parseFlags (xs ++ ys) args p = parseFlags ys args' p.
Proof.
  induction xs as [xs IH] using (induction_ltof1 _ (@length string)).
  unfold ltof in IH. intros ys args args' p.
  destruct xs as [|a xs]; [by intros [= ->]|].
  cbn [app]. parse_cases IH; try done.
Qed.

(** The command is the first argument, whatever the flags. *)
Lemma parseFlags_command rest : ∀ args args' p,
  fst (parseFlags rest args p) = Continue args' →
  command args' = command args.
Proof.
  induction rest as [rest IH] using (induction_ltof1 _ (@length string)).
  unfold ltof in IH. intros args args' p.
  destruct rest as [|a rest]; [by intros [= ->]|].
  parse_cases IH; try done.
  all: intros Hparsed; etransitivity; [eapply IH; [|exact Hparsed]|];
    [cbn; lia|done].
Qed.

(** X3. Flags are read from left to right and each one overwrites what an
    earlier one set: when some flags parse, any flags after them are parsed
    from the arguments gathered so far, so that a flag given again at the
    end has the last word, and [--base64] is never taken back. *)
Theorem later_flags_override
    (xs : list string) (args args' : Args) (p : Process) :
  fst (parseFlags xs args p) = Continue args' →
  (∀ ys, parseFlags (xs ++ ys) args p = parseFlags ys args' p)
  ∧ (∀ v, parseFlags (xs ++ ["--pasteboard"; v]) args p
          = (Continue (mkArgs (command args') (Some v) (type args')
                         (format args') (isBase64 args')), p))
  ∧ (∀ v, parseFlags (xs ++ ["--type"; v]) args p
          = (Continue (mkArgs (command args') (pasteboard args') (Some v)
                         (format args') (isBase64 args')), p))
  ∧ (∀ v, parseFlags (xs ++ ["--format"; v]) args p
          = (Continue (mkArgs (command args') (pasteboard args') (type args')
                         v (isBase64 args')), p))
  ∧ parseFlags (xs ++ ["--base64"]) args p
    = (Continue (mkArgs (command args') (pasteboard args') (type args')
                   (format args') true), p)
  ∧ command args' = command args.
Proof.
  intros Hparsed.
  split; [intros ys; by apply parseFlags_app|].
  split; [intros v; by rewrite (parseFlags_app _ _ _ _ _ Hparsed)|].
  split; [intros v; by rewrite (parseFlags_app _ _ _ _ _ Hparsed)|].
  split; [intros v; by rewrite (parseFlags_app _ _ _ _ _ Hparsed)|].
  split; [by rewrite (parseFlags_app _ _ _ _ _ Hparsed)|].
  by eapply parseFlags_command.
Qed.

(** ** Exit codes and streams *)




(** ** The order of the checks *)

Lemma dispatch_unknown args input w :
  command args ∉ commands →
  run_cmd (dispatch args) input w = failed usage w [].
Proof.
  unfold commands. rewrite !not_elem_of_cons.
  intros (H1 & H2 & H3 & H4 & H5 & H6 & H7 & H8 & _).
  unfold dispatch.
  by rewrite (proj2 (String.eqb_neq _ _) H1), (proj2 (String.eqb_neq _ _) H2),
    (proj2 (String.eqb_neq _ _) H3), (proj2 (String.eqb_neq _ _) H4),
    (proj2 (String.eqb_neq _ _) H5), (proj2 (String.eqb_neq _ _) H6),
    (proj2 (String.eqb_neq _ _) H7), (proj2 (String.eqb_neq _ _) H8).
Qed.

(** X4. The adapter checks its arguments in a fixed order.  Without a
    command it prints the usage text and exits with 1.  The flags are
    parsed before the command is looked at: a flag error is reported in the
    same way whatever the command is, known or not.  Only when the flags
    parse does an unknown command get the usage text.  None of these runs
    makes a pasteboard call. *)
Theorem arguments_are_checked_first
    (prog c : string) (rest : list string) (input : Data)
    (w : gmap string Pasteboard) :
  run_cmd (main []) input w = failed usage w []
  ∧ run_cmd (main [prog]) input w = failed usage w []
  ∧ (∀ code,
       fst (parseArgs (prog :: c :: rest) (fresh input w)) = Exited code →
       calls_made (run_cmd (main (prog :: c :: rest)) input w) = []
       ∧ ∀ c', run_cmd (main (prog :: c' :: rest)) input w
               = run_cmd (main (prog :: c :: rest)) input w)
  ∧ (∀ args,
       fst (parseArgs (prog :: c :: rest) (fresh input w)) = Continue args →
       c ∉ commands →
       run_cmd (main (prog :: c :: rest)) input w = failed usage w []).
Proof.
  split; [reflexivity|]. split; [reflexivity|]. split.
  - intros code Hexit. split.
    + by destruct (main_unparsed _ _ _ _ Hexit) as (_ & _ & _ & ->).
    + intros c'. unfold run_cmd, main, Cmd.bind. cbn [parseArgs] in *.
      by rewrite (parseFlags_exit_any _ _ (mkArgs c' None None "png" false)
                    _ _ Hexit).
  - intros args Hparsed Hc.
    rewrite (main_parsed _ _ _ _ Hparsed).
    apply dispatch_unknown.
    cbn [parseArgs] in Hparsed.
    by rewrite (parseFlags_command _ _ _ _ Hparsed).
Qed.

(** ** Reads *)

Lemma is_read_cases c :
  is_read c = true →
  c = "list-types" ∨ c = "read-text" ∨ c = "read-image" ∨ c = "read".
Proof.
  unfold is_read. rewrite !orb_true_iff, !String.eqb_eq. tauto.
Qed.

(** X5. The four reading commands (list-types, read-text, read-image,
    read) leave every pasteboard as it is and make no mutating call,
    whether they succeed or fail; and they do not look at standard input:
    the outcome is the same whatever is on it. *)
Theorem reads_change_nothing
    (args : Args) (input : Data) (w : gmap string Pasteboard) :
  is_read (command args) = true →
  let o := run_cmd (dispatch args) input w in
  after o = w
  ∧ filter is_mutation (calls_made o) = []
  ∧ (∀ input', run_cmd (dispatch args) input' w = o).
Proof.
  intros Hr.
  destruct (is_read_cases _ Hr) as [Hc|[Hc|[Hc|Hc]]].
  - rewrite (dispatch_list_types _ Hc). cbn zeta.
    split; [|split; [|intros input'; by rewrite !run_cmdListTypes]];
      rewrite run_cmdListTypes; by destruct (_ ≫= decodeUTF8).
  - rewrite (dispatch_read_text _ Hc). cbn zeta.
    split; [|split; [|intros input'; by rewrite !run_cmdReadText]];
      rewrite run_cmdReadText; by destruct (string_on _ _ _).
  - rewrite (dispatch_read_image _ Hc). cbn zeta.
    split; [|split; [|intros input'; by rewrite !run_cmdReadImage]];
      rewrite run_cmdReadImage;
      (destruct (image_on _) as [rep|]; [destruct (representation rep _)|]);
      cbn [after calls_made succeeded failed];
      rewrite ?image_reads_no_mutation; done.
  - rewrite (dispatch_read _ Hc). cbn zeta.
    split; [|split; [|intros input'; by rewrite !run_cmdRead]];
      rewrite run_cmdRead; (destruct (type args); [|done]);
      (destruct (string_on _ _ _); [done|]); by destruct (data_on _ _ _).
Qed.

Lemma lookup_type_None t items :
  NSPasteboard.lookup_type t items = None ↔ t ∉ (fst <$> items).
Proof.
  induction items as [|[t' d'] items IH].
  - split; [intros _; apply not_elem_of_nil|done].
  - rewrite lookup_type_cons, fmap_cons, not_elem_of_cons. cbn [fst].
    destruct (t' =? t) eqn:E.
    + apply String.eqb_eq in E as ->. split; [done|]. by intros [? _].
    + apply String.eqb_neq in E. rewrite IH. split; [|tauto].
      intros Hnot. split; [congruence|done].
Qed.


(** ** One pasteboard per invocation *)

Lemma image_reads_target pb items :
  Forall (λ c, call_target c = pb) (image_reads pb items).
Proof.
  unfold image_reads.
  destruct (NSPasteboard.lookup_type NSPasteboard.tiff_type items ≫= _);
    by repeat constructor.
Qed.

Lemma image_sets_target pb rep fmt :
  Forall (λ c, call_target c = pb) (image_sets pb rep fmt).
Proof.
  unfold image_sets, set_if.
  destruct (representation rep tiff), (fmt =? "png");
    try destruct (representation rep png); by repeat constructor.
Qed.

Lemma replaced_works_on pb sets w :
  Forall (λ c, call_target c = pb) sets →
  works_on pb w (replaced pb sets w).
Proof.
  intros Hsets. split.
  - intros pb' Hne. by apply lookup_insert_ne.
  - by constructor.
Qed.

Lemma dispatch_works_on args input w :
  works_on (getPasteboard (pasteboard args)) w (run_cmd (dispatch args) input w).
Proof.
  assert (Hfail : ∀ m, works_on (getPasteboard (pasteboard args)) w
                         (failed m w [])) by (by split).
  unfold dispatch.
  repeat match goal with
         | |- context [if ?b then _ else _] => destruct b
         end.
  - rewrite run_cmdListTypes.
    destruct (_ ≫= decodeUTF8); (split; [done|by repeat constructor]).
  - rewrite run_cmdReadText.
    destruct (string_on _ _ _); (split; [done|by repeat constructor]).
  - rewrite run_cmdWriteText. destruct (decodeUTF8 input); [|apply Hfail].
    apply replaced_works_on. by repeat constructor.
  - rewrite run_cmdReadImage.
    (destruct (image_on _) as [rep|]; [destruct (representation rep _)|]);
      (split; [done|apply image_reads_target]).
  - rewrite run_cmdWriteImage.
    destruct (decodeBase64Input input) as [d|]; [|apply Hfail].
    destruct (NSBitmapImageRep_init d); [|apply Hfail].
    apply replaced_works_on, image_sets_target.
  - rewrite run_cmdRead. destruct (type args); [|apply Hfail].
    destruct (string_on _ _ _); [split; [done|by repeat constructor]|].
    destruct (data_on _ _ _); (split; [done|by repeat constructor]).
  - rewrite run_cmdWrite. destruct (type args); [|apply Hfail].
    destruct (isBase64 args).
    + destruct (decodeBase64Input input); [|apply Hfail].
      apply replaced_works_on. by repeat constructor.
    + destruct (decodeUTF8 input); [|apply Hfail].
      apply replaced_works_on. by repeat constructor.
  - rewrite run_cmdClear. by apply replaced_works_on.
  - apply (Hfail usage).
Qed.

(** Flags without a [--pasteboard] token leave the pasteboard name as it
    was. *)
Lemma parseFlags_no_pasteboard rest : ∀ args args' p,
  ("--pasteboard" ∉ rest) →
  fst (parseFlags rest args p) = Continue args' →
  pasteboard args' = pasteboard args.
Proof.
  induction rest as [rest IH] using (induction_ltof1 _ (@length string)).
  unfold ltof in IH. intros args args' p Hnot.
  destruct rest as [|a rest]; [by intros [= ->]|].
  apply not_elem_of_cons in Hnot as [Ha Hnot].
  cbn [parseFlags].
  rewrite (proj2 (String.eqb_neq _ _) (not_eq_sym Ha)).
  destruct (a =? "--type").
  { destruct rest as [|v rest]; [done|].
    apply not_elem_of_cons in Hnot as [_ Hnot]. intros Hp.
    by rewrite (IH rest ltac:(cbn; lia) _ _ _ Hnot Hp). }
  destruct (a =? "--format").
  { destruct rest as [|v rest]; [done|].
    apply not_elem_of_cons in Hnot as [_ Hnot]. intros Hp.
    by rewrite (IH rest ltac:(cbn; lia) _ _ _ Hnot Hp). }
  destruct (a =? "--base64"); [|done].
  intros Hp. by rewrite (IH rest ltac:(cbn; lia) _ _ _ Hnot Hp).
Qed.

(** X6. An invocation works on one pasteboard, the one its [--pasteboard]
    flag resolves to: every pasteboard call of a command is on the
    pasteboard of its arguments, and every other pasteboard of the server
    is afterwards what it was.  For an argument vector this is the
    pasteboard of the parsed arguments: the value of a [--pasteboard]
    flag given last, whatever flags came before it, and the general
    pasteboard when the vector has no [--pasteboard] token.  A vector that
    does not parse makes no call and changes no pasteboard. *)
Theorem one_pasteboard_per_invocation
    (input : Data) (w : gmap string Pasteboard) :
  (∀ args,
     works_on (getPasteboard (pasteboard args)) w
       (run_cmd (dispatch args) input w))
  ∧ (∀ argv args,
       fst (parseArgs argv (fresh input w)) = Continue args →
       works_on (getPasteboard (pasteboard args)) w
         (run_cmd (main argv) input w))
  ∧ (∀ argv code,
       fst (parseArgs argv (fresh input w)) = Exited code →
       after (run_cmd (main argv) input w) = w
       ∧ calls_made (run_cmd (main argv) input w) = [])
  ∧ (∀ prog c flags v args,
       fst (parseFlags flags (mkArgs c None None "png" false)
              (fresh input w)) = Continue args →
       works_on (getPasteboard (Some v)) w
         (run_cmd (main (prog :: c :: app flags ["--pasteboard"; v]))
            input w))
  ∧ (∀ prog c flags args,
       ("--pasteboard" ∉ flags) →
       fst (parseFlags flags (mkArgs c None None "png" false)
              (fresh input w)) = Continue args →
       works_on Name_general w (run_cmd (main (prog :: c :: flags)) input w)).
Proof.
  split; [intros args; apply dispatch_works_on|].
  split.
  { intros argv args Hp. rewrite (main_parsed _ _ _ _ Hp).
    apply dispatch_works_on. }
  split.
  { intros argv code Hp.
    destruct (main_unparsed _ _ _ _ Hp) as (_ & _ & Hafter & Hcalls).
    by split. }
  split.
  - intros prog c flags v args Hp.
    rewrite (main_parsed _
               (mkArgs (command args) (Some v) (type args) (format args)
                  (isBase64 args))).
    + apply (dispatch_works_on
               (mkArgs (command args) (Some v) (type args) (format args)
                  (isBase64 args))).
    + cbn [parseArgs]. by rewrite (parseFlags_app _ _ _ _ _ Hp).
  - intros prog c flags args Hnot Hp.
    rewrite (main_parsed _ args) by exact Hp.
    pose proof (dispatch_works_on args input w) as Hw.
    by rewrite (parseFlags_no_pasteboard _ _ _ _ Hnot Hp) in Hw.
Qed.

(** ** Clearing *)

Lemma dispatch_clear args :
  command args = "clear" → dispatch args = cmdClear args.
Proof. intros Hc. unfold dispatch. by rewrite Hc. Qed.

(** X7. [clear] cannot fail: it makes the one call [clearContents], prints
    nothing and ends normally, whatever standard input holds.  Afterwards
    the pasteboard has no representation; clearing again changes nothing;
    and on the cleared pasteboard read-text, read-image and every typed
    read exit with 1, each after the reads it makes on a pasteboard that
    has the item, while list-types serialises the empty list. *)
Theorem clear_empties
    (args : Args) (input : Data) (w : gmap string Pasteboard) :
  command args = "clear" →
  let pb := getPasteboard (pasteboard args) in
  let o := run_cmd (dispatch args) input w in
  let w' := after o in
  o = mkOutcome 0 [] EmptyString (<[pb := []]> w) [ClearContents pb]
  ∧ NSPasteboard.contents w' pb = []
  ∧ (∀ input', after (run_cmd (dispatch args) input' w') = w')
  ∧ (∀ argsR inputR,
       getPasteboard (pasteboard argsR) = pb →
       (command argsR = "read-text" →
        run_cmd (dispatch argsR) inputR w'
        = failed "No text on pasteboard" w'
            [StringForType pb NSPasteboard.string_type])
       ∧ (command argsR = "read-image" →
          run_cmd (dispatch argsR) inputR w'
          = failed "No image on pasteboard" w'
              [DataForType pb NSPasteboard.tiff_type;
               DataForType pb NSPasteboard.png_type])
       ∧ (∀ t, command argsR = "read" → type argsR = Some t →
          run_cmd (dispatch argsR) inputR w'
          = failed ("No data for type " ++ t ++ " on pasteboard") w'
              [StringForType pb t; DataForType pb t])
       ∧ (command argsR = "list-types" →
          run_cmd (dispatch argsR) inputR w'
          = match JSONSerialization_data [] ≫= decodeUTF8 with
            | Some str => succeeded (utf8 (str ++ newline)) w' [Types pb]
            | None => failed "Failed to serialize types" w' [Types pb]
            end)).
Proof.
  intros Hc pb o w'.
  assert (Ho : o = replaced pb [] w).
  { subst o. by rewrite (dispatch_clear _ Hc), run_cmdClear. }
  assert (Hw' : w' = <[pb := []]> w) by (subst w'; by rewrite Ho).
  assert (Hitems : NSPasteboard.contents w' pb = []).
  { rewrite Hw'. apply contents_insert_eq. }
  split; [exact Ho|]. split; [exact Hitems|]. split.
  - intros input'. rewrite (dispatch_clear _ Hc), run_cmdClear.
    fold pb. cbn [after replaced omap]. rewrite Hw'.
    apply insert_insert_eq.
  - intros argsR inputR Hpb. repeat split.
    + intros HcR. rewrite (dispatch_read_text _ HcR), run_cmdReadText, Hpb.
      unfold string_on, data_on. by rewrite Hitems.
    + intros HcR. rewrite (dispatch_read_image _ HcR), run_cmdReadImage, Hpb.
      by rewrite Hitems.
    + intros t HcR Ht. rewrite (dispatch_read _ HcR), run_cmdRead, Hpb, Ht.
      unfold string_on, data_on. by rewrite Hitems.
    + intros HcR.
      rewrite (dispatch_list_types _ HcR), run_cmdListTypes, Hpb.
      by rewrite Hitems.
Qed.

(** ** Typed round trips *)

(** X9. A string written under a type identifier with [write --type t] is
    what [read --type t] prints from the same pasteboard, for every type
    identifier, and the read makes the one call [string(forType: t)]; the
    only precondition is that decoding UTF-8 undoes encoding the string. *)
Theorem typed_text_round_trip
    (s t : string) (argsW argsR : Args) (input : Data)
    (w : gmap string Pasteboard) :
  decodeUTF8 (utf8 s) = Some s →
  command argsW = "write" → type argsW = Some t → isBase64 argsW = false →
  command argsR = "read" → type argsR = Some t →
  getPasteboard (pasteboard argsR) = getPasteboard (pasteboard argsW) →
  let pb := getPasteboard (pasteboard argsW) in
  let written := run_cmd (dispatch argsW) (utf8 s) w in
  written = replaced pb [SetString pb s t] w
  ∧ run_cmd (dispatch argsR) input (after written)
    = succeeded (utf8 s) (after written) [StringForType pb t].
Proof.
  intros Hs HcW HtW HbW HcR HtR Hpb pb written.
  assert (Hw : written = replaced pb [SetString pb s t] w).
  { subst written. by rewrite (dispatch_write _ HcW), run_cmdWrite, HtW, HbW, Hs. }
  split; [exact Hw|].
  rewrite (dispatch_read _ HcR), run_cmdRead, HtR, Hpb. fold pb.
  rewrite Hw. cbn [after replaced].
  unfold string_on, data_on.
  rewrite contents_insert_eq. cbn [omap list_omap set_by].
  rewrite lookup_type_cons, String.eqb_refl.
  cbn [mbind option_bind]. by rewrite Hs.
Qed.

(** X10. Bytes written with [write --type t --base64] come back from
    [read --type t]: when the bytes are UTF-8 the read prints them as the
    string they encode, after the one call [string(forType:)]; otherwise
    it asks for the data as well and prints the base64 encoding of the
    same bytes.  The standard input of the write only has to decode. *)
Theorem typed_base64_round_trip
    (d : Data) (t : string) (argsW argsR : Args) (inputW input : Data)
    (w : gmap string Pasteboard) :
  decodeBase64Input inputW = Some d →
  command argsW = "write" → type argsW = Some t → isBase64 argsW = true →
  command argsR = "read" → type argsR = Some t →
  getPasteboard (pasteboard argsR) = getPasteboard (pasteboard argsW) →
  let pb := getPasteboard (pasteboard argsW) in
  let written := run_cmd (dispatch argsW) inputW w in
  written = replaced pb [SetData pb d t] w
  ∧ run_cmd (dispatch argsR) input (after written)
    = match decodeUTF8 d with
      | Some str => succeeded (utf8 str) (after written) [StringForType pb t]
      | None =>
          succeeded (utf8 (base64EncodedString d)) (after written)
            [StringForType pb t; DataForType pb t]
      end.
Proof.
  intros Hd HcW HtW HbW HcR HtR Hpb pb written.
  assert (Hw : written = replaced pb [SetData pb d t] w).
  { subst written. by rewrite (dispatch_write _ HcW), run_cmdWrite, HtW, HbW, Hd. }
  split; [exact Hw|].
  rewrite (dispatch_read _ HcR), run_cmdRead, HtR, Hpb. fold pb.
  rewrite Hw. cbn [after replaced].
  unfold string_on, data_on.
  rewrite contents_insert_eq. cbn [omap list_omap set_by].
  rewrite lookup_type_cons, String.eqb_refl.
  cbn [mbind option_bind]. by destruct (decodeUTF8 d).
Qed.

(** X11. An image written with write-image is read back by read-image
    from its TIFF representation alone: when the bitmap has a TIFF
    encoding and that encoding decodes, read-image makes the one call
    [data(forType: tiff)] and never asks for the PNG payload, also after
    [write-image --format png]; what it prints is the re-encoding of the
    decoded TIFF in the format of the read. *)
Theorem image_round_trip
    (d td : Data) (rep rep' : NSBitmapImageRep) (argsW argsR : Args)
    (inputW input : Data) (w : gmap string Pasteboard) :
  decodeBase64Input inputW = Some d →
  NSBitmapImageRep_init d = Some rep →
  representation rep tiff = Some td →
  NSBitmapImageRep_init td = Some rep' →
  command argsW = "write-image" →
  command argsR = "read-image" →
  getPasteboard (pasteboard argsR) = getPasteboard (pasteboard argsW) →
  let pb := getPasteboard (pasteboard argsW) in
  let written := run_cmd (dispatch argsW) inputW w in
  exit_code written = 0%Z
  ∧ NSPasteboard.contents (after written) pb = image_item rep (format argsW)
  ∧ run_cmd (dispatch argsR) input (after written)
    = match representation rep' (fileType_of (format argsR)) with
      | Some outputData =>
          succeeded (utf8 (base64EncodedString outputData)) (after written)
            [DataForType pb NSPasteboard.tiff_type]
      | None =>
          failed ("Failed to convert image to " ++ format argsR)
            (after written) [DataForType pb NSPasteboard.tiff_type]
      end.
Proof.
  intros Hd Hrep Htd Hrep' HcW HcR Hpb pb written.
  assert (Hw : written = replaced pb (image_sets pb rep (format argsW)) w).
  { subst written.
    by rewrite (dispatch_write_image _ HcW), run_cmdWriteImage, Hd, Hrep. }
  assert (Hitems : NSPasteboard.contents (after written) pb
                   = image_item rep (format argsW)).
  { rewrite Hw. cbn [after replaced]. rewrite contents_insert_eq.
    apply image_sets_item. }
  assert (Htiff : NSPasteboard.lookup_type NSPasteboard.tiff_type
                    (image_item rep (format argsW)) = Some td).
  { unfold image_item. rewrite Htd. cbn [rep_if app].
    by rewrite lookup_type_cons, String.eqb_refl. }
  split; [by rewrite Hw|]. split; [exact Hitems|].
  rewrite (dispatch_read_image _ HcR), run_cmdReadImage, Hpb. fold pb.
  rewrite Hitems, image_on_eq. unfold image_reads. rewrite Htiff.
  cbn [mbind option_bind]. by rewrite Hrep'.
Qed.

(** ** The text commands are typed commands *)

(** X12. write-text is [write --type public.utf8-plain-text]: on the same
    input and server the two have the same outcome, calls included; and
    read-text prints what [read --type public.utf8-plain-text] prints
    whenever the pasteboard has a string of that type.  Without one the
    two differ: read-text fails, the typed read goes on to the data. *)
Theorem text_commands_are_typed
    (argsT argsD : Args) (input : Data) (w : gmap string Pasteboard) :
  getPasteboard (pasteboard argsD) = getPasteboard (pasteboard argsT) →
  type argsD = Some NSPasteboard.string_type →
  let pb := getPasteboard (pasteboard argsT) in
  (command argsT = "write-text" → command argsD = "write" →
   isBase64 argsD = false →
   run_cmd (dispatch argsT) input w = run_cmd (dispatch argsD) input w)
  ∧ (command argsT = "read-text" → command argsD = "read" →
     (string_on w pb NSPasteboard.string_type ≠ None →
      run_cmd (dispatch argsT) input w = run_cmd (dispatch argsD) input w)
     ∧ (string_on w pb NSPasteboard.string_type = None →
        exit_code (run_cmd (dispatch argsT) input w) = 1%Z
        ∧ calls_made (run_cmd (dispatch argsD) input w)
          = [StringForType pb NSPasteboard.string_type;
             DataForType pb NSPasteboard.string_type])).
Proof.
  intros Hpb Ht pb. split.
  - intros HcT HcD Hb.
    rewrite (dispatch_write_text _ HcT), (dispatch_write _ HcD).
    rewrite run_cmdWriteText, run_cmdWrite, Ht, Hb, Hpb. done.
  - intros HcT HcD.
    rewrite (dispatch_read_text _ HcT), (dispatch_read _ HcD).
    rewrite run_cmdReadText, run_cmdRead, Ht, Hpb. fold pb. split.
    + by destruct (string_on w pb _).
    + intros ->. split; [done|]. by destruct (data_on w pb _).
Qed.

(** ** Writes do not read *)

Lemma dispatch_mutator args :
  is_write (command args) = true ∨ command args = "clear" →
  ∀ input,
    (∃ sets, ∀ w0, run_cmd (dispatch args) input w0
                   = replaced (getPasteboard (pasteboard args)) sets w0)
    ∨ (∃ message, ∀ w0, run_cmd (dispatch args) input w0
                        = failed message w0 []).
Proof.
  intros [Hw|Hc] input.
  - destruct (is_write_cases _ Hw) as [Hc|[Hc|Hc]].
    + rewrite (dispatch_write_text _ Hc).
      destruct (decodeUTF8 input) as [text|] eqn:E;
        [left; eexists|right; eexists]; intros w0;
        by rewrite run_cmdWriteText, E.
    + rewrite (dispatch_write_image _ Hc).
      destruct (decodeBase64Input input) as [d|] eqn:E;
        [destruct (NSBitmapImageRep_init d) as [rep|] eqn:E'|];
        [left; eexists|right; eexists|right; eexists]; intros w0;
        by rewrite run_cmdWriteImage, E, ?E'.
    + rewrite (dispatch_write _ Hc).
      destruct (type args) as [t|] eqn:Et;
        [destruct (isBase64 args) eqn:Eb;
         [destruct (decodeBase64Input input) eqn:E
         |destruct (decodeUTF8 input) eqn:E]|];
        [left; eexists|right; eexists|left; eexists|right; eexists
        |right; eexists]; intros w0;
        by rewrite run_cmdWrite, Et, ?Eb, ?E.
  - left. exists []. intros w0. by rewrite (dispatch_clear _ Hc), run_cmdClear.
Qed.

(** X13. The writing commands and clear never read the pasteboard: exit
    code, output, stderr and the calls made are the same on every server
    state.  So the last writer wins: when a write or clear that ends
    normally follows any other write or clear on the same pasteboard, the
    server is afterwards exactly what the second one alone would have
    left, and nothing of the first one's item remains. *)
Theorem last_writer_wins
    (args1 args2 : Args) (input1 input2 : Data)
    (w : gmap string Pasteboard) :
  is_write (command args1) = true ∨ command args1 = "clear" →
  is_write (command args2) = true ∨ command args2 = "clear" →
  getPasteboard (pasteboard args1) = getPasteboard (pasteboard args2) →
  let first := run_cmd (dispatch args1) input1 w in
  let second := run_cmd (dispatch args2) input2 (after first) in
  let alone := run_cmd (dispatch args2) input2 w in
  exit_code second = exit_code alone
  ∧ out second = out alone
  ∧ err second = err alone
  ∧ calls_made second = calls_made alone
  ∧ (exit_code second = 0%Z → after second = after alone).
Proof.
  intros H1 H2 Hpb first second alone.
  destruct (dispatch_mutator _ H2 input2) as [[sets2 E2]|[m2 E2]];
    subst second alone; rewrite !E2; [|by repeat split].
  repeat split. intros _. cbn [after replaced].
  destruct (dispatch_mutator _ H1 input1) as [[sets1 E1]|[m1 E1]];
    subst first; rewrite E1; [|done].
  cbn [after replaced]. rewrite Hpb. apply insert_insert_eq.
Qed.

End InvocationFacts.
End InvocationFacts.

(** * The whole stack: tool handler, bridge, adapter *)

Module StackFacts.
Section StackFacts.
Context `{Foundation} `{AppKit} `{Bridge.JavaScript}.
Import Adapter AdapterSpec AdapterFacts.
Import Bridge BridgeSpec BridgeFacts Server Pipeline StackSpec.
Variable JSON_stringify : JSON → string.

(** ** The adapter under the bridge *)

Lemma exec_adapter w argv stdinData :
  execPbHelper (adapter_child w) argv stdinData
  = Resolved
      (mkExecResult (out (adapter_run w argv stdinData))
         (Buffer_toString (utf8 (err (adapter_run w argv stdinData))))
         (exit_code (adapter_run w argv stdinData))).
Proof.
  unfold execPbHelper, adapter_child.
  cbn [concat String.concat fmap list_fmap default from_option id].
  by rewrite app_nil_r.
Qed.

Lemma adapter_run_parsed w argv stdinData args input :
  input = utf8 (default EmptyString stdinData) →
  (∀ p, parseArgs ("pbhelper" :: argv) p = (Continue args, p)) →
  adapter_run w argv stdinData = run_cmd (dispatch args) input w.
Proof.
  intros -> Hp. unfold adapter_run. apply main_parsed. by rewrite Hp.
Qed.

Lemma checked_settles {A} (o : Outcome) (k : Promise A)
    (render : Data → Promise A) :
  k = render (out o) →
  settles_on
    (await (checkResult
              (mkExecResult (out o) (Buffer_toString (utf8 (err o)))
                 (exit_code o))) (λ _, k)) o render.
Proof.
  intros ->. unfold settles_on.
  destruct (Z.eq_dec (exit_code o) 0%Z) as [E|E].
  - rewrite checkResult_ok by exact E. by rewrite E.
  - rewrite checkResult_rejects by exact E. cbn [await Bridge.stderr exitCode].
    by destruct (exit_code o).
Qed.

Ltac settle stdinData input Hp :=
  rewrite exec_adapter;
  rewrite (adapter_run_parsed _ _ stdinData _ input eq_refl Hp);
  cbn [await];
  first [ apply checked_settles; reflexivity
        | match goal with
          | |- settles_on (await (await ?c ?f) ?g) ?o ?r =>
              replace (await (await c f) g) with (await c (λ _, await (f tt) g))
                by (by destruct c as [[]|]);
              apply checked_settles; reflexivity
          end ].

Lemma list_types_tool w pb :
  settles_on (pasteboard_list_types (adapter_child w) JSON_stringify pb)
    (run_cmd (dispatch (mkArgs "list-types" (named pb) None "png" false))
       [] w)
    (lists JSON_stringify).
Proof.
  assert (Hp : ∀ p, parseArgs ("pbhelper" :: "list-types" :: pbArgs pb) p
                    = (Continue (mkArgs "list-types" (named pb) None "png"
                                   false), p)).
  { intros p. apply (bridge_arguments_parse "pbhelper" pb p). }
  unfold pasteboard_list_types, listTypes.
  rewrite exec_adapter.
  rewrite (adapter_run_parsed _ _ None _ [] eq_refl Hp).
  cbn [await]. unfold settles_on, lists.
  set (o := run_cmd _ _ _).
  destruct (Z.eq_dec (exit_code o) 0%Z) as [E|E].
  - rewrite checkResult_ok by exact E. rewrite E. cbn [await Bridge.stdout].
    by destruct (JSON_parse _).
  - rewrite checkResult_rejects by exact E. cbn [await Bridge.stderr exitCode].
    by destruct (exit_code o).
Qed.

Lemma read_text_tool w pb :
  settles_on (pasteboard_read_text (adapter_child w) pb)
    (run_cmd (dispatch (mkArgs "read-text" (named pb) None "png" false))
       [] w)
    says_text.
Proof.
  assert (Hp : ∀ p, parseArgs ("pbhelper" :: "read-text" :: pbArgs pb) p
                    = (Continue (mkArgs "read-text" (named pb) None "png"
                                   false), p)).
  { intros p. apply (bridge_arguments_parse "pbhelper" pb p). }
  unfold pasteboard_read_text, readText. settle (@None string) (@nil byte) Hp.
Qed.

Lemma write_text_tool w s pb :
  settles_on (pasteboard_write_text (adapter_child w) s pb)
    (run_cmd (dispatch (mkArgs "write-text" (named pb) None "png" false))
       (utf8 s) w)
    (confirms "Text written to pasteboard.").
Proof.
  assert (Hp : ∀ p, parseArgs ("pbhelper" :: "write-text" :: pbArgs pb) p
                    = (Continue (mkArgs "write-text" (named pb) None "png"
                                   false), p)).
  { intros p. apply (bridge_arguments_parse "pbhelper" pb p). }
  unfold pasteboard_write_text, writeText. settle (Some s) (utf8 s) Hp.
Qed.

Lemma read_image_tool w pb format :
  let fmt := default "png" format in
  settles_on (pasteboard_read_image (adapter_child w) pb format)
    (run_cmd (dispatch (mkArgs "read-image" (named pb) None fmt false))
       [] w)
    (shows_image (if fmt =? "tiff" then "image/tiff" else "image/png")).
Proof.
  intros fmt.
  assert (Hp : ∀ p, parseArgs ("pbhelper" :: "read-image" :: "--format"
                                 :: fmt :: pbArgs pb) p
                    = (Continue (mkArgs "read-image" (named pb) None fmt
                                   false), p)).
  { intros p. apply (bridge_arguments_parse "pbhelper" pb p). }
  unfold pasteboard_read_image, readImage. fold fmt.
  settle (@None string) (@nil byte) Hp.
Qed.

Lemma write_image_tool w data format pb :
  settles_on (pasteboard_write_image (adapter_child w) data format pb)
    (run_cmd (dispatch (mkArgs "write-image" (named pb) None
                          (default "png" format) false))
       (utf8 data) w)
    (confirms "Image written to pasteboard.").
Proof.
  assert (Hp : ∀ p, parseArgs ("pbhelper" :: "write-image" :: "--format"
                                 :: default "png" format :: pbArgs pb) p
                    = (Continue (mkArgs "write-image" (named pb) None
                                   (default "png" format) false), p)).
  { intros p. apply (bridge_arguments_parse "pbhelper" pb p). }
  unfold pasteboard_write_image, writeImage. settle (Some data) (utf8 data) Hp.
Qed.

Lemma read_tool w t pb :
  settles_on (pasteboard_read (adapter_child w) t pb)
    (run_cmd (dispatch (mkArgs "read" (named pb) (Some t) "png" false))
       [] w)
    says_text.
Proof.
  assert (Hp : ∀ p, parseArgs ("pbhelper" :: "read" :: "--type" :: t
                                 :: pbArgs pb) p
                    = (Continue (mkArgs "read" (named pb) (Some t) "png"
                                   false), p)).
  { intros p. apply (bridge_arguments_parse "pbhelper" pb p). }
  unfold pasteboard_read, readData. settle (@None string) (@nil byte) Hp.
Qed.

Lemma write_tool w t data is_base64 pb :
  settles_on (pasteboard_write (adapter_child w) t data is_base64 pb)
    (run_cmd (dispatch (mkArgs "write" (named pb) (Some t) "png"
                          (default false is_base64)))
       (utf8 data) w)
    (confirms ("Data written to pasteboard as " ++ t ++ ".")).
Proof.
  assert (Hp : ∀ p, parseArgs
                      ("pbhelper" :: "write" :: "--type" :: t
                         :: app (if default false is_base64
                                 then ["--base64"] else []) (pbArgs pb)) p
                    = (Continue (mkArgs "write" (named pb) (Some t) "png"
                                   (default false is_base64)), p)).
  { intros p. apply (bridge_arguments_parse "pbhelper" pb p). }
  unfold pasteboard_write, writeData. cbn zeta.
  settle (Some data) (utf8 data) Hp.
Qed.

Lemma clear_tool w pb :
  settles_on (pasteboard_clear (adapter_child w) pb)
    (run_cmd (dispatch (mkArgs "clear" (named pb) None "png" false)) [] w)
    (confirms "Pasteboard cleared.").
Proof.
  assert (Hp : ∀ p, parseArgs ("pbhelper" :: "clear" :: pbArgs pb) p
                    = (Continue (mkArgs "clear" (named pb) None "png"
                                   false), p)).
  { intros p. apply (bridge_arguments_parse "pbhelper" pb p). }
  unfold pasteboard_clear, clear. settle (@None string) (@nil byte) Hp.
Qed.

(** X14. What a tool call does is what the adapter does on the arguments
    of the call: each of the eight tool handlers, run over the bridge with
    the adapter as the child, settles as the adapter's command on the
    parsed arguments dictates.  The pasteboard name arrives in
    [--pasteboard] (an empty name as none at all), the type in [--type],
    the format in [--format] with [png] for a missing one, [is_base64] as
    [--base64] with [false] for a missing one, and the payload on
    standard input in UTF-8.  An exit code 0 resolves with the one content
    item rendered from stdout; any other rejects with the message made
    from the adapter's stderr. *)
Theorem tools_run_the_adapter (w : gmap string Pasteboard) :
  let spawn := adapter_child w in
  let run c pb t fmt b input :=
    run_cmd (dispatch (mkArgs c (named pb) t fmt b)) input w in
  (∀ pb,
     settles_on (pasteboard_list_types spawn JSON_stringify pb)
       (run "list-types" pb None "png" false []) (lists JSON_stringify))
  ∧ (∀ pb,
       settles_on (pasteboard_read_text spawn pb)
         (run "read-text" pb None "png" false []) says_text)
  ∧ (∀ s pb,
       settles_on (pasteboard_write_text spawn s pb)
         (run "write-text" pb None "png" false (utf8 s))
         (confirms "Text written to pasteboard."))
  ∧ (∀ pb format,
       settles_on (pasteboard_read_image spawn pb format)
         (run "read-image" pb None (default "png" format) false [])
         (shows_image (if default "png" format =? "tiff"
                       then "image/tiff" else "image/png")))
  ∧ (∀ data format pb,
       settles_on (pasteboard_write_image spawn data format pb)
         (run "write-image" pb None (default "png" format) false (utf8 data))
         (confirms "Image written to pasteboard."))
  ∧ (∀ t pb,
       settles_on (pasteboard_read spawn t pb)
         (run "read" pb (Some t) "png" false []) says_text)
  ∧ (∀ t data is_base64 pb,
       settles_on (pasteboard_write spawn t data is_base64 pb)
         (run "write" pb (Some t) "png" (default false is_base64) (utf8 data))
         (confirms ("Data written to pasteboard as " ++ t ++ ".")))
  ∧ (∀ pb,
       settles_on (pasteboard_clear spawn pb)
         (run "clear" pb None "png" false [])
         (confirms "Pasteboard cleared.")).
Proof.
  intros spawn run. subst spawn run. cbn beta.
  split; [apply list_types_tool|].
  split; [apply read_text_tool|].
  split; [apply write_text_tool|].
  split; [intros pb format; apply read_image_tool|].
  split; [apply write_image_tool|].
  split; [apply read_tool|].
  split; [apply write_tool|].
  apply clear_tool.
Qed.

(** ** Round trip and errors through the tools *)

Lemma failure_message_trims m :
  trims m → m ≠ EmptyString →
  failure_message (Buffer_toString (utf8 (m ++ newline))) 1 = m.
Proof.
  intros Hm Hne. unfold failure_message. rewrite Hm.
  by apply String.eqb_neq in Hne as ->.
Qed.

(** X15. Text written with the tool [pasteboard_write_text] is the text
    that [pasteboard_read_text] returns from the same pasteboard, through
    handler, bridge and adapter and back; the typed tool [pasteboard_read]
    returns it as well for the plain-text type.  The preconditions are on
    the two runtimes: decoding UTF-8 undoes encoding the text, in Swift
    and in JavaScript. *)
Theorem tool_text_round_trip
    (s : string) (pb : option string) (w : gmap string Pasteboard) :
  decodeUTF8 (utf8 s) = Some s →
  Buffer_toString (utf8 s) = s →
  let w' := after (adapter_run w ("write-text" :: pbArgs pb) (Some s)) in
  pasteboard_write_text (adapter_child w) s pb
  = Resolved (says "Text written to pasteboard.")
  ∧ NSPasteboard.contents w' (getPasteboard (named pb))
    = [(NSPasteboard.string_type, utf8 s)]
  ∧ pasteboard_read_text (adapter_child w') pb = Resolved (says s)
  ∧ pasteboard_read (adapter_child w') NSPasteboard.string_type pb
    = Resolved (says s).
Proof.
  intros Hs Hb w'.
  set (pbn := getPasteboard (named pb)).
  assert (Hw' : w' = <[pbn := [(NSPasteboard.string_type, utf8 s)]]> w).
  { subst w'.
    rewrite (adapter_run_parsed _ _ (Some s)
               (mkArgs "write-text" (named pb) None "png" false)
               (utf8 s) eq_refl)
      by (intros p; apply (bridge_arguments_parse "pbhelper" pb p)).
    by rewrite (dispatch_write_text (mkArgs _ _ _ _ _) eq_refl), run_cmdWriteText, Hs. }
  assert (Hitems : NSPasteboard.contents w' pbn
                   = [(NSPasteboard.string_type, utf8 s)]).
  { rewrite Hw'. apply contents_insert_eq. }
  assert (Hstr : string_on w' pbn NSPasteboard.string_type = Some s).
  { unfold string_on, data_on.
    rewrite Hitems, lookup_type_cons, String.eqb_refl.
    cbn [mbind option_bind]. exact Hs. }
  split; [|split; [exact Hitems|split]].
  - pose proof (write_text_tool w s pb) as Hw. unfold settles_on in Hw.
    rewrite (dispatch_write_text (mkArgs _ _ _ _ _) eq_refl), run_cmdWriteText, Hs in Hw.
    exact Hw.
  - pose proof (read_text_tool w' pb) as Hr. unfold settles_on in Hr.
    rewrite (dispatch_read_text (mkArgs _ _ _ _ _) eq_refl), run_cmdReadText in Hr.
    cbn [pasteboard] in Hr. fold pbn in Hr. rewrite Hstr in Hr.
    cbn [exit_code out succeeded] in Hr. unfold says_text in Hr.
    by rewrite Hb in Hr.
  - pose proof (read_tool w' NSPasteboard.string_type pb) as Hr.
    unfold settles_on in Hr.
    rewrite (dispatch_read (mkArgs _ _ _ _ _) eq_refl), run_cmdRead in Hr.
    cbn [pasteboard type] in Hr. fold pbn in Hr. rewrite Hstr in Hr.
    cbn [exit_code out succeeded] in Hr. unfold says_text in Hr.
    by rewrite Hb in Hr.
Qed.

(** X16. The MIME type of an image result is the format the adapter
    encoded: when [pasteboard_read_image] resolves, the pasteboard held an
    image, the result is one image item with the base64 text the adapter
    printed, and its MIME type is [image/tiff] exactly when the adapter
    encoded TIFF and [image/png] when it encoded PNG, for every format
    string, a missing one being [png]. *)
Theorem image_tool_mime_type
    (w : gmap string Pasteboard) (pb format : option string)
    (r : ToolResult) :
  pasteboard_read_image (adapter_child w) pb format = Resolved r →
  let fileType := fileType_of (default "png" format) in
  ∃ rep outputData,
    image_on (NSPasteboard.contents w (getPasteboard (named pb))) = Some rep
    ∧ representation rep fileType = Some outputData
    ∧ content r
      = [ImageContent
           (Buffer_toString (utf8 (base64EncodedString outputData)))
           (match fileType with
            | tiff => "image/tiff"
            | png => "image/png"
            end)].
Proof.
  intros Hres fileType.
  pose proof (read_image_tool w pb format) as Hs. cbn zeta in Hs.
  unfold settles_on in Hs.
  rewrite (dispatch_read_image (mkArgs _ _ _ _ _) eq_refl), run_cmdReadImage in Hs.
  cbn [pasteboard Adapter.format] in Hs. fold fileType in Hs.
  destruct (image_on _) as [rep|]; [|by rewrite Hs in Hres].
  destruct (representation rep fileType) as [outputData|] eqn:Hrep;
    [|by rewrite Hs in Hres].
  cbn [exit_code out succeeded] in Hs. rewrite Hs in Hres.
  unfold shows_image in Hres. injection Hres as <-.
  exists rep, outputData. split; [done|]. split; [done|].
  cbn [content]. subst fileType. unfold fileType_of.
  by destruct (_ =? "tiff").
Qed.

(** X17. The adapter's refusals reach the caller of a tool as the error
    of the call: reading text from a pasteboard without a string, an image
    from one without a decodable image, or a type that the pasteboard
    does not list rejects with the adapter's message, once the JavaScript
    runtime trims the printed line to the message.  [pasteboard_clear]
    needs no precondition at all and always resolves with its
    confirmation. *)
Theorem tool_errors (w : gmap string Pasteboard) (pb : option string) :
  let pbn := getPasteboard (named pb) in
  let spawn := adapter_child w in
  (string_on w pbn NSPasteboard.string_type = None →
   trims "No text on pasteboard" →
   pasteboard_read_text spawn pb
   = Rejected (mkError "No text on pasteboard"))
  ∧ (∀ format,
       image_on (NSPasteboard.contents w pbn) = None →
       trims "No image on pasteboard" →
       pasteboard_read_image spawn pb format
       = Rejected (mkError "No image on pasteboard"))
  ∧ (∀ t,
       t ∉ (fst <$> NSPasteboard.contents w pbn) →
       trims ("No data for type " ++ t ++ " on pasteboard") →
       pasteboard_read spawn t pb
       = Rejected (mkError ("No data for type " ++ t ++ " on pasteboard")))
  ∧ pasteboard_clear spawn pb = Resolved (says "Pasteboard cleared.").
Proof.
  intros pbn spawn. subst spawn. repeat split.
  - intros Hnone Ht.
    pose proof (read_text_tool w pb) as Hs. unfold settles_on in Hs.
    rewrite (dispatch_read_text (mkArgs _ _ _ _ _) eq_refl), run_cmdReadText in Hs.
    cbn [pasteboard] in Hs. fold pbn in Hs. rewrite Hnone in Hs.
    cbn [exit_code err failed] in Hs.
    by rewrite failure_message_trims in Hs.
  - intros format Hnone Ht.
    pose proof (read_image_tool w pb format) as Hs. cbn zeta in Hs.
    unfold settles_on in Hs.
    rewrite (dispatch_read_image (mkArgs _ _ _ _ _) eq_refl), run_cmdReadImage in Hs.
    cbn [pasteboard] in Hs. fold pbn in Hs. rewrite Hnone in Hs.
    cbn [exit_code err failed] in Hs.
    by rewrite failure_message_trims in Hs.
  - intros t Hnot Ht.
    apply InvocationFacts.lookup_type_None in Hnot.
    pose proof (read_tool w t pb) as Hs. unfold settles_on in Hs.
    rewrite (dispatch_read (mkArgs _ _ _ _ _) eq_refl), run_cmdRead in Hs.
    cbn [pasteboard type] in Hs. fold pbn in Hs.
    unfold string_on, data_on in Hs. rewrite Hnot in Hs.
    cbn [mbind option_bind exit_code err failed] in Hs.
    by rewrite failure_message_trims in Hs.
  - pose proof (clear_tool w pb) as Hs. unfold settles_on in Hs.
    by rewrite (InvocationFacts.dispatch_clear (mkArgs _ _ _ _ _) eq_refl), run_cmdClear in Hs.
Qed.

End StackFacts.
End StackFacts.

(** * When a bridge operation resolves *)

Module SettlingFacts.
Section SettlingFacts.
Import Bridge BridgeSpec BridgeFacts StackSpec.
Context `{JavaScript}.
Variable spawn : list string → option string → Child.

Lemma failure_message_not_empty stderr_text code :
  failure_message stderr_text code ≠ EmptyString.
Proof.
  unfold failure_message. cbn zeta.
  destruct (String_trim stderr_text =? EmptyString) eqn:E; [done|].
  by apply String.eqb_neq in E.
Qed.

Lemma settles_resolved {A} (call : Promise A) child decode :
  settles call child decode → resolves_only_on_0 call child.
Proof.
  intros Hs v Hv. unfold settles in Hs.
  destruct child as [msg|so se [[|c|c]|]]; cbn [default from_option id] in Hs;
    try congruence.
  by exists so, se.
Qed.

Lemma settles_message {A} (call : Promise A) child decode :
  settles call child decode →
  (∀ d, ∃ v, decode d = Resolved v) →
  rejects_with_a_message call.
Proof.
  intros Hs Hdecode e He. unfold settles in Hs.
  destruct child as [msg|so se [[|c|c]|]]; cbn [default from_option id] in Hs;
    rewrite Hs in He.
  - by injection He as <-.
  - destruct (Hdecode (concat so)) as [v Hv]. congruence.
  - injection He as <-. apply failure_message_not_empty.
  - injection He as <-. apply failure_message_not_empty.
  - injection He as <-. apply failure_message_not_empty.
Qed.

(** X18. An operation of the bridge that has resolved had a child that
    closed with the exit code 0: after a spawn error, another exit code or
    a child that a signal ended (no code) no operation resolves.  And the
    seven operations that do not parse their output, when they have
    rejected, carry a message that is not empty; [listTypes] can also
    reject with the message of the JSON parser, whatever that is.
    Nothing is said here about whether an operation settles at all. *)
Theorem resolves_only_on_exit_0 :
  (∀ pasteboard,
     resolves_only_on_0 (listTypes spawn pasteboard)
       (spawn ("list-types" :: pbArgs pasteboard) None))
  ∧ (∀ pasteboard,
       resolves_only_on_0 (readText spawn pasteboard)
         (spawn ("read-text" :: pbArgs pasteboard) None)
       ∧ rejects_with_a_message (readText spawn pasteboard))
  ∧ (∀ s pasteboard,
       resolves_only_on_0 (writeText spawn s pasteboard)
         (spawn ("write-text" :: pbArgs pasteboard) (Some s))
       ∧ rejects_with_a_message (writeText spawn s pasteboard))
  ∧ (∀ pasteboard format,
       resolves_only_on_0 (readImage spawn pasteboard format)
         (spawn ("read-image" :: "--format" :: format :: pbArgs pasteboard)
            None)
       ∧ rejects_with_a_message (readImage spawn pasteboard format))
  ∧ (∀ base64Data pasteboard format,
       resolves_only_on_0 (writeImage spawn base64Data pasteboard format)
         (spawn ("write-image" :: "--format" :: format :: pbArgs pasteboard)
            (Some base64Data))
       ∧ rejects_with_a_message
           (writeImage spawn base64Data pasteboard format))
  ∧ (∀ type pasteboard,
       resolves_only_on_0 (readData spawn type pasteboard)
         (spawn ("read" :: "--type" :: type :: pbArgs pasteboard) None)
       ∧ rejects_with_a_message (readData spawn type pasteboard))
  ∧ (∀ type data (isBase64 : bool) pasteboard,
       resolves_only_on_0 (writeData spawn type data isBase64 pasteboard)
         (spawn ("write" :: "--type" :: type
                   :: app (if isBase64 then ["--base64"] else [])
                        (pbArgs pasteboard)) (Some data))
       ∧ rejects_with_a_message
           (writeData spawn type data isBase64 pasteboard))
  ∧ (∀ pasteboard,
       resolves_only_on_0 (clear spawn pasteboard)
         (spawn ("clear" :: pbArgs pasteboard) None)
       ∧ rejects_with_a_message (clear spawn pasteboard)).
Proof.
  assert (Htext : ∀ d : Data, ∃ v : string, text d = Resolved v)
    by (intros d; by eexists).
  assert (Hnothing : ∀ d : Data, ∃ v : unit, nothing d = Resolved v)
    by (intros d; by eexists).
  split; [intros pb; eapply settles_resolved;
          apply (call_settles spawn _ _ parsed)|].
  split; [intros pb; split;
          [eapply settles_resolved|eapply settles_message; [|exact Htext]];
          apply (call_settles spawn _ _ text)|].
  split; [intros s pb; split;
          [eapply settles_resolved|eapply settles_message; [|exact Hnothing]];
          apply (void_call_settles spawn)|].
  split; [intros pb format; split;
          [eapply settles_resolved|eapply settles_message; [|exact Htext]];
          apply (call_settles spawn _ _ text)|].
  split; [intros d pb format; split;
          [eapply settles_resolved|eapply settles_message; [|exact Hnothing]];
          apply (void_call_settles spawn)|].
  split; [intros t pb; split;
          [eapply settles_resolved|eapply settles_message; [|exact Htext]];
          apply (call_settles spawn _ _ text)|].
  split; [intros t d b pb; split;
          [eapply settles_resolved|eapply settles_message; [|exact Hnothing]];
          apply (void_call_settles spawn)|].
  intros pb; split;
    [eapply settles_resolved|eapply settles_message; [|exact Hnothing]];
    apply (void_call_settles spawn).
Qed.

End SettlingFacts.
End SettlingFacts.

(** * The preconditions hold: invocations and tools on the reference
    libraries *)

Module InvocationWitnesses.
Import Adapter AdapterSpec InvocationSpec Bridge BridgeSpec Server Pipeline.
Import StackSpec ReferenceJS Samples.
#[local] Existing Instance Reference.foundation.
#[local] Existing Instance Reference.appkit.

Lemma later_flags_override_witness :
  let args := mkArgs "read" None None "png" false in
  let p := fresh [] ∅ in
  fst (parseFlags ["--type"; "a"; "--pasteboard"; "find"] args p)
  = Continue (mkArgs "read" (Some "find") (Some "a") "png" false)
  ∧ parseFlags ["--type"; "a"; "--pasteboard"; "find"; "--type"; "b"] args p
    = (Continue (mkArgs "read" (Some "find") (Some "b") "png" false), p).
Proof.
  intros args p.
  assert (Hp : fst (parseFlags ["--type"; "a"; "--pasteboard"; "find"] args p)
               = Continue (mkArgs "read" (Some "find") (Some "a") "png"
                             false)) by reflexivity.
  split; [exact Hp|].
  exact (proj1 (proj2 (proj2
           (InvocationFacts.later_flags_override _ _ _ _ Hp))) "b").
Defined.

Lemma arguments_are_checked_first_witness :
  ("paste" ∉ commands)
  ∧ run_cmd (main ["pbhelper"; "paste"; "--format"; "tiff"]) [] with_text
    = failed usage with_text []
  ∧ fst (parseArgs ["pbhelper"; "clear"; "--pasteboard"] (fresh [] with_text))
    = Exited 1%Z
  ∧ calls_made (run_cmd (main ["pbhelper"; "clear"; "--pasteboard"]) []
                  with_text) = [].
Proof.
  assert (Hnot : "paste" ∉ commands).
  { unfold commands.
    repeat (apply not_elem_of_cons; split; [discriminate|]).
    apply not_elem_of_nil. }
  assert (Hp : fst (parseArgs ["pbhelper"; "paste"; "--format"; "tiff"]
                      (fresh [] with_text))
               = Continue (mkArgs "paste" None None "tiff" false))
    by (vm_compute; reflexivity).
  assert (Hx : fst (parseArgs ["pbhelper"; "clear"; "--pasteboard"]
                      (fresh [] with_text)) = Exited 1%Z)
    by (vm_compute; reflexivity).
  split; [exact Hnot|]. split; [|split; [exact Hx|]].
  - exact (proj2 (proj2 (proj2
             (InvocationFacts.arguments_are_checked_first
                "pbhelper" "paste" ["--format"; "tiff"] [] with_text)))
             _ Hp Hnot).
  - exact (proj1 (proj1 (proj2 (proj2
             (InvocationFacts.arguments_are_checked_first
                "pbhelper" "clear" ["--pasteboard"] [] with_text)))
             _ Hx)).
Defined.

Lemma reads_change_nothing_witness :
  let args := mkArgs "read-text" None None "png" false in
  is_read (command args) = true
  ∧ after (run_cmd (dispatch args) [] with_text) = with_text
  ∧ run_cmd (dispatch args) (utf8 "ignored") with_text
    = run_cmd (dispatch args) [] with_text.
Proof.
  intros args.
  assert (Hr : is_read (command args) = true) by reflexivity.
  destruct (InvocationFacts.reads_change_nothing args [] with_text Hr)
    as (Hafter & _ & Hinput).
  split; [exact Hr|]. split; [exact Hafter|exact (Hinput (utf8 "ignored"))].
Defined.

Lemma clear_empties_witness :
  let args := mkArgs "clear" None None "png" false in
  let argsR := mkArgs "read-text" None None "png" false in
  let w' := after (run_cmd (dispatch args) [] with_text) in
  command args = "clear"
  ∧ NSPasteboard.contents with_text Name_general
    = [("public.utf8-plain-text", utf8 "hello")]
  ∧ NSPasteboard.contents w' Name_general = []
  ∧ run_cmd (dispatch argsR) [] w'
    = failed "No text on pasteboard" w'
        [StringForType Name_general "public.utf8-plain-text"].
Proof.
  intros args argsR w'.
  assert (Hc : command args = "clear") by reflexivity.
  destruct (InvocationFacts.clear_empties args [] with_text Hc)
    as (_ & Hitems & _ & Hreads).
  split; [exact Hc|]. split; [vm_compute; reflexivity|].
  split; [exact Hitems|].
  exact (proj1 (Hreads argsR [] eq_refl) eq_refl).
Defined.


Lemma typed_text_round_trip_witness :
  let argsW := mkArgs "write" (Some "notes") (Some "com.example.note") "png"
                 false in
  let argsR := mkArgs "read" (Some "notes") (Some "com.example.note") "png"
                 false in
  let written := run_cmd (dispatch argsW) (utf8 sample_text) ∅ in
  decodeUTF8 (utf8 sample_text) = Some sample_text
  ∧ run_cmd (dispatch argsR) [] (after written)
    = succeeded (utf8 sample_text) (after written)
        [StringForType "notes" "com.example.note"].
Proof.
  intros argsW argsR written.
  assert (Hs : decodeUTF8 (utf8 sample_text) = Some sample_text)
    by (vm_compute; reflexivity).
  split; [exact Hs|].
  exact (proj2 (InvocationFacts.typed_text_round_trip sample_text
                  "com.example.note" argsW argsR [] ∅ Hs
                  eq_refl eq_refl eq_refl eq_refl eq_refl eq_refl)).
Defined.

Lemma typed_base64_round_trip_witness :
  let argsW := mkArgs "write" None (Some "com.test.bin") "png" true in
  let argsR := mkArgs "read" None (Some "com.test.bin") "png" false in
  let written := run_cmd (dispatch argsW) (utf8 "/w==") ∅ in
  decodeBase64Input (utf8 "/w==") = Some [xff]
  ∧ decodeUTF8 [xff] = None
  ∧ run_cmd (dispatch argsR) [] (after written)
    = succeeded (utf8 "/w==") (after written)
        [StringForType Name_general "com.test.bin";
         DataForType Name_general "com.test.bin"].
Proof.
  intros argsW argsR written.
  assert (Hd : decodeBase64Input (utf8 "/w==") = Some [xff])
    by (vm_compute; reflexivity).
  split; [exact Hd|]. split; [vm_compute; reflexivity|].
  exact (proj2 (InvocationFacts.typed_base64_round_trip [xff]
                  "com.test.bin" argsW argsR (utf8 "/w==") [] ∅ Hd
                  eq_refl eq_refl eq_refl eq_refl eq_refl eq_refl)).
Defined.

Lemma image_round_trip_witness :
  let argsW := mkArgs "write-image" None None "png" false in
  let argsR := mkArgs "read-image" None None "png" false in
  let written := run_cmd (dispatch argsW) png_input ∅ in
  decodeBase64Input png_input = Some (app Reference.png_signature pixels)
  ∧ representation (pixels : NSBitmapImageRep) tiff
    = Some (app Reference.tiff_signature pixels)
  ∧ run_cmd (dispatch argsR) [] (after written)
    = succeeded (utf8 TEST_PNG_BASE64) (after written)
        [DataForType Name_general "public.tiff"].
Proof.
  intros argsW argsR written.
  assert (Hd : decodeBase64Input png_input
               = Some (app Reference.png_signature pixels))
    by (vm_compute; reflexivity).
  assert (Hrep : NSBitmapImageRep_init (app Reference.png_signature pixels)
                 = Some (pixels : NSBitmapImageRep)) by reflexivity.
  assert (Htd : representation (pixels : NSBitmapImageRep) tiff
                = Some (app Reference.tiff_signature pixels)) by reflexivity.
  assert (Hrep' : NSBitmapImageRep_init (app Reference.tiff_signature pixels)
                  = Some (pixels : NSBitmapImageRep)) by reflexivity.
  split; [exact Hd|]. split; [exact Htd|].
  exact (proj2 (proj2
           (InvocationFacts.image_round_trip _ _ _ _ argsW argsR png_input []
              ∅ Hd Hrep Htd Hrep' eq_refl eq_refl eq_refl))).
Defined.

Lemma text_commands_are_typed_witness :
  let argsT := mkArgs "write-text" None None "png" false in
  let argsD := mkArgs "write" None (Some "public.utf8-plain-text") "png"
                 false in
  type argsD = Some NSPasteboard.string_type
  ∧ run_cmd (dispatch argsT) (utf8 "hello") ∅
    = run_cmd (dispatch argsD) (utf8 "hello") ∅.
Proof.
  intros argsT argsD.
  assert (Ht : type argsD = Some NSPasteboard.string_type) by reflexivity.
  split; [exact Ht|].
  exact (proj1 (InvocationFacts.text_commands_are_typed argsT argsD
                  (utf8 "hello") ∅ eq_refl Ht) eq_refl eq_refl eq_refl).
Defined.

Lemma last_writer_wins_witness :
  let args1 := mkArgs "write-image" None None "png" false in
  let args2 := mkArgs "write-text" None None "png" false in
  let first := run_cmd (dispatch args1) png_input ∅ in
  let second := run_cmd (dispatch args2) (utf8 "hello") (after first) in
  is_write (command args1) = true
  ∧ exit_code second = 0%Z
  ∧ after second = with_text.
Proof.
  intros args1 args2 first second.
  assert (H1 : is_write (command args1) = true) by reflexivity.
  assert (H2 : is_write (command args2) = true) by reflexivity.
  assert (Hok : exit_code second = 0%Z) by (vm_compute; reflexivity).
  split; [exact H1|]. split; [exact Hok|].
  etransitivity;
    [exact (proj2 (proj2 (proj2 (proj2
              (InvocationFacts.last_writer_wins args1 args2 png_input
                 (utf8 "hello") ∅ (or_introl H1) (or_introl H2) eq_refl))))
              Hok)|].
  vm_compute. reflexivity.
Defined.

Lemma tool_text_round_trip_witness :
  let w' := after (adapter_run ∅ ["write-text"; "--pasteboard"; "find"]
                     (Some sample_text)) in
  decodeUTF8 (utf8 sample_text) = Some sample_text
  ∧ Buffer_toString (utf8 sample_text) = sample_text
  ∧ pasteboard_write_text (adapter_child ∅) sample_text (Some "find")
    = Resolved (says "Text written to pasteboard.")
  ∧ pasteboard_read_text (adapter_child w') (Some "find")
    = Resolved (says sample_text).
Proof.
  intros w'.
  assert (Hs : decodeUTF8 (utf8 sample_text) = Some sample_text)
    by (vm_compute; reflexivity).
  assert (Hb : Buffer_toString (utf8 sample_text) = sample_text)
    by (vm_compute; reflexivity).
  destruct (StackFacts.tool_text_round_trip sample_text (Some "find") ∅ Hs Hb)
    as (Hw & _ & Hr & _).
  split; [exact Hs|]. split; [exact Hb|]. split; [exact Hw|exact Hr].
Defined.

Lemma image_tool_mime_type_witness :
  let r := mkToolResult
             [ImageContent
                (Reference.base64EncodedString
                   (app Reference.tiff_signature pixels)) "image/tiff"] in
  pasteboard_read_image (adapter_child with_broken_tiff) None (Some "tiff")
  = Resolved r
  ∧ ∃ rep outputData,
      image_on (NSPasteboard.contents with_broken_tiff Name_general)
      = Some rep
      ∧ representation rep tiff = Some outputData
      ∧ content r
        = [ImageContent
             (Buffer_toString (utf8 (base64EncodedString outputData)))
             "image/tiff"].
Proof.
  intros r.
  assert (Hr : pasteboard_read_image (adapter_child with_broken_tiff) None
                 (Some "tiff") = Resolved r) by (vm_compute; reflexivity).
  split; [exact Hr|].
  exact (StackFacts.image_tool_mime_type with_broken_tiff None (Some "tiff")
           r Hr).
Defined.

Lemma tool_errors_witness :
  string_on ∅ Name_general NSPasteboard.string_type = None
  ∧ trims "No text on pasteboard"
  ∧ pasteboard_read_text (adapter_child ∅) None
    = Rejected (mkError "No text on pasteboard")
  ∧ trims "No data for type public.png on pasteboard"
  ∧ pasteboard_read (adapter_child with_text) "public.png" None
    = Rejected (mkError "No data for type public.png on pasteboard").
Proof.
  assert (Hnone : string_on ∅ Name_general NSPasteboard.string_type = None)
    by reflexivity.
  assert (Ht : trims "No text on pasteboard") by (vm_compute; reflexivity).
  assert (Ht' : trims "No data for type public.png on pasteboard")
    by (vm_compute; reflexivity).
  assert (Hnot : "public.png"
                 ∉ (fst <$> NSPasteboard.contents with_text Name_general)).
  { vm_compute. intros Hin. apply list_elem_of_singleton in Hin.
    discriminate. }
  split; [exact Hnone|]. split; [exact Ht|]. split; [|split; [exact Ht'|]].
  - exact (proj1 (StackFacts.tool_errors ∅ None) Hnone Ht).
  - exact (proj1 (proj2 (proj2 (StackFacts.tool_errors with_text None)))
             "public.png" Hnot Ht').
Defined.

Lemma one_pasteboard_per_invocation_witness :
  let argv := ["pbhelper"; "write-text"; "--pasteboard"; "find";
               "--pasteboard"; "notes"] in
  let o := run_cmd (main argv) (utf8 "hello") with_text in
  fst (parseFlags ["--pasteboard"; "find"]
         (mkArgs "write-text" None None "png" false)
         (fresh (utf8 "hello") with_text))
  = Continue (mkArgs "write-text" (Some "find") None "png" false)
  ∧ calls_made o
    = [ClearContents "notes";
       SetString "notes" "hello" "public.utf8-plain-text"]
  ∧ works_on "notes" with_text o.
Proof.
  intros argv o.
  assert (Hp : fst (parseFlags ["--pasteboard"; "find"]
                      (mkArgs "write-text" None None "png" false)
                      (fresh (utf8 "hello") with_text))
               = Continue (mkArgs "write-text" (Some "find") None "png"
                             false)) by reflexivity.
  split; [exact Hp|]. split; [vm_compute; reflexivity|].
  exact (proj1 (proj2 (proj2 (proj2
           (InvocationFacts.one_pasteboard_per_invocation (utf8 "hello")
              with_text))))
           "pbhelper" "write-text" ["--pasteboard"; "find"] "notes" _ Hp).
Defined.

End InvocationWitnesses.

(** * Where the specification and the code part *)

Module Counterexamples.
Import Adapter AdapterSpec Samples.
#[local] Existing Instance Reference.foundation.
#[local] Existing Instance NoTiff.appkit.


End Counterexamples.
